(** * RegenEnergy: rule-based energy management of a hybrid powertrain

    A shallow embedding of [energyManagement.py]: the module-level
    configuration constants, the mode decision, the engine/motor power
    split, the battery state-of-charge update with its clamp, and the
    simulation loop that threads the state of charge through the time
    steps and stores one entry per step in five output arrays.

    Numbers.  The script computes with binary64 values.  The loop is
    embedded twice.  The main embedding uses exact rationals ([Q]):
    comparisons, [min], [max], subtraction and the division by the literal
    [2.0] are the operations the control logic is built from, and every
    constant of the script is a decimal fraction.  Rounding, infinities and
    NaN are outside it, and its statements are up to [Qeq] ([==]) where a
    value is the result of arithmetic; the properties proved on it are
    orderings, bounds and equalities of recorded values that rounding to
    nearest preserves.  Module [Binary64] embeds the step of the loop over
    primitive binary64 numbers, operation by operation, and is where the
    effect of rounding is evaluated.  Division by a zero [dt] or
    [battery_voltage] is modelled as the exception Python raises for it
    during setup; division by a zero [battery_capacity_C] is not modelled
    (in [Q], [x / 0] is [0]), and the statements that depend on that
    quotient assume a non-zero capacity. *)

From Stdlib Require Import QArith Qround Qminmax Qabs Lqa ZArith Lia Bool Sorted String.
From Stdlib Require Import PrimFloat.
From stdpp Require Import base list.

(* Decimal literals such as 0.7 denote the nearest binary64 number, as in
   Python. *)
Set Warnings "-inexact-float".

Local Open Scope Q_scope.

(** ** Python's comparisons and builtins on numbers *)

Module Py.

Definition lt (x y : Q) : bool := negb (Qle_bool y x).
Definition le (x y : Q) : bool := Qle_bool x y.
Definition gt (x y : Q) : bool := lt y x.

(** [min(a, b)] keeps [a] unless [b < a]; [max(a, b)] keeps [a] unless
    [b > a] (the builtins return the first of several equal extrema). *)
Definition min (a b : Q) : Q := if lt b a then b else a.
Definition max (a b : Q) : Q := if gt b a then b else a.

(** The exceptions the script can raise. *)
Inductive exn : Set := IndexError | ZeroDivisionError.

End Py.

(** ** 1.-3. Simulation setup, battery model, control thresholds *)

(** The module-level constants of the script. *)
Record Config : Set := {
  dt : Q;                            (* time step (seconds) *)
  total_time : Q;                    (* total simulation time in seconds *)
  battery_capacity_kWh : Q;
  battery_voltage : Q;               (* V nominal *)
  SoC_init : Q;
  battery_internal_resistance : Q;   (* ohms; declared, never read *)
  SoC_High : Q;
  SoC_Low : Q;
  SoC_Cruise : Q;                    (* declared, never read *)
  Power_Demand_Threshold : Q;        (* kW *)
  Max_Electric_Power : Q;            (* kW, motor limit *)
  regen_efficiency : Q               (* declared, never read *)
}.

(** The values the script assigns. *)
Definition script_config : Config := {|
  dt := 1.0;
  total_time := 1800;
  battery_capacity_kWh := 10.0;
  battery_voltage := 200.0;
  SoC_init := 0.7;
  battery_internal_resistance := 0.05;
  SoC_High := 0.8;
  SoC_Low := 0.3;
  SoC_Cruise := 0.5;
  Power_Demand_Threshold := 20.0;
  Max_Electric_Power := 30.0;
  regen_efficiency := 0.3
|}.

Definition battery_capacity_Wh (cfg : Config) : Q :=
  battery_capacity_kWh cfg * 1000.0.

(** [battery_capacity_Wh * 3600 / battery_voltage]: capacity in coulombs. *)
Definition battery_capacity_C (cfg : Config) : Q :=
  battery_capacity_Wh cfg * 3600 / battery_voltage cfg.

(** [len(np.arange(0, total_time, dt))] is [ceil(total_time / dt)], and [0]
    when that is negative.  The quotient is exact here; numpy rounds it to
    binary64 before the ceiling, which adds an entry when the rounded
    quotient exceeds an integer the exact one equals (2.1 / 0.3).  For the
    script's 1800 / 1.0 and the runs evaluated below the two agree, and the
    statements depend on this number only as the number of iterations. *)
Definition time_array_len (cfg : Config) : nat :=
  Z.to_nat (Qceiling (total_time cfg / dt cfg)).

(** [np.arange(0, total_time, dt)]: the sample instants [0, dt, 2 dt, ...]. *)
Definition time_array (cfg : Config) : list Q :=
  (fun k : nat => inject_Z (Z.of_nat k) * dt cfg) <$> seq 0 (time_array_len cfg).

(** State machine: 0 = EV Mode, 1 = Hybrid/Assist, 2 = Engine Only. *)
Inductive Mode : Set := EV | HYBRID | ENGINE_ONLY.

Definition mode_code (m : Mode) : Z :=
  match m with EV => 0 | HYBRID => 1 | ENGINE_ONLY => 2 end%Z.

(** ** 4. The simulation loop *)

(** The two powers the split assigns. *)
Record PowerSplit : Set := { engine_power : Q; motor_power : Q }.

(** The variables the loop carries and the five arrays it fills. *)
Record State : Set := {
  SoC : Q;
  current_mode : Z;
  SoC_array : list Q;
  mode_array : list Z;
  engine_power_array : list Q;
  motor_power_array : list Q;
  battery_power_array : list Q
}.

(** How a run of the script ends. *)
Inductive Outcome : Set :=
  | Completed (st : State)
      (* the loop ran to its end *)
  | RaisedInLoop (e : Py.exn) (i : nat) (st : State)
      (* [e] was raised in iteration [i], which was entered in state [st] *)
  | RaisedInSetup (e : Py.exn).
      (* [e] was raised before the loop, no array exists yet *)

Section Loop.

Variable cfg : Config.

(** --- Determine Mode --- *)
Definition determine_mode (SoC demand : Q) : Z :=
  if Py.gt SoC (SoC_High cfg) && Py.lt demand (Max_Electric_Power cfg)
  then 0
  else if Py.lt SoC (SoC_Low cfg)
  then 2
  else if Py.gt demand (Power_Demand_Threshold cfg)
  then 1
  else 0.

(** --- Calculate Power Split --- *)
Definition power_split (current_mode : Z) (demand : Q) : PowerSplit :=
  if (current_mode =? 0)%Z then
    if Py.le demand (Max_Electric_Power cfg)
    then {| motor_power := demand; engine_power := 0.0 |}
    else {| motor_power := Max_Electric_Power cfg;
            engine_power := demand - Max_Electric_Power cfg |}
  else if (current_mode =? 1)%Z then
    {| engine_power := demand / 2.0;
       motor_power := Py.min (demand / 2.0) (Max_Electric_Power cfg) |}
  else
    {| engine_power := demand; motor_power := 0.0 |}.

(** --- Battery Interaction ---: the state of charge after the
    [if battery_power > 0] statement, before it is clamped.  The quotients
    and the difference are exact here; [Binary64.discharge] rounds each
    operation as the script does. *)
Definition discharge (SoC battery_power : Q) : Q :=
  let power_in_watts := battery_power * 1000.0 in
  if Py.gt battery_power 0
  then
    let dQ := power_in_watts * dt cfg / battery_voltage cfg in
    SoC - dQ / battery_capacity_C cfg
  else SoC.

(** [max(0.0, min(1.0, SoC))] *)
Definition clamp (SoC : Q) : Q := Py.max 0.0 (Py.min 1.0 SoC).

(** [np.zeros_like(time_array)], five times; [SoC = SoC_init];
    [current_mode = 0]. *)
Definition initial_state : State :=
  let n := time_array_len cfg in
  {| SoC := SoC_init cfg;
     current_mode := 0;
     SoC_array := replicate n 0;
     mode_array := replicate n 0%Z;
     engine_power_array := replicate n 0;
     motor_power_array := replicate n 0;
     battery_power_array := replicate n 0 |}.

Variables power_demand_profile speed_profile : list Q.

(** One iteration of [for i, t in enumerate(time_array)].  Reading either
    profile past its end raises [IndexError]; the five stores are at an
    index of [time_array], hence in range. *)
Definition loop_body (i : nat) (st : State) : Py.exn + State :=
  match power_demand_profile !! i with
  | None => inl Py.IndexError
  | Some demand =>
    match speed_profile !! i with
    | None => inl Py.IndexError
    | Some speed =>
      let current_mode := determine_mode (SoC st) demand in
      let split := power_split current_mode demand in
      let battery_power := motor_power split in
      let SoC' := clamp (discharge (SoC st) battery_power) in
      inr {| SoC := SoC';
             current_mode := current_mode;
             SoC_array := <[i := SoC']> (SoC_array st);
             mode_array := <[i := current_mode]> (mode_array st);
             engine_power_array :=
               <[i := engine_power split]> (engine_power_array st);
             motor_power_array :=
               <[i := motor_power split]> (motor_power_array st);
             battery_power_array :=
               <[i := battery_power]> (battery_power_array st) |}
    end
  end.

Fixpoint loop (indices : list nat) (st : State) : Outcome :=
  match indices with
  | [] => Completed st
  | i :: rest =>
    match loop_body i st with
    | inl e => RaisedInLoop e i st
    | inr st' => loop rest st'
    end
  end.

(** The script from its first line to the end of the loop.  [np.arange]
    divides by [dt] and the assignment of [battery_capacity_C] divides by
    [battery_voltage]; both are Python floats, whose division by zero
    raises. *)
Definition simulate : Outcome :=
  if Qeq_bool (dt cfg) 0 then RaisedInSetup Py.ZeroDivisionError
  else if Qeq_bool (battery_voltage cfg) 0 then RaisedInSetup Py.ZeroDivisionError
  else loop (seq 0 (time_array_len cfg)) initial_state.

End Loop.

(** The state a run ends in, when the arrays exist. *)
Definition final_state (o : Outcome) : option State :=
  match o with
  | Completed st | RaisedInLoop _ _ st => Some st
  | RaisedInSetup _ => None
  end.

(** ** The run as a list of samples

    What one step assigns, as a value, and the list of these values along a
    demand sequence: the contents the five arrays are compared with. *)

Record Sample : Set := {
  s_SoC : Q; s_mode : Z; s_engine : Q; s_motor : Q; s_battery : Q
}.

Definition sample (cfg : Config) (soc demand : Q) : Sample :=
  let m := determine_mode cfg soc demand in
  let split := power_split cfg m demand in
  {| s_SoC := clamp (discharge cfg soc (motor_power split));
     s_mode := m;
     s_engine := engine_power split;
     s_motor := motor_power split;
     s_battery := motor_power split |}.

Fixpoint samples (cfg : Config) (soc : Q) (demands : list Q) : list Sample :=
  match demands with
  | [] => []
  | d :: ds => let s := sample cfg soc d in s :: samples cfg (s_SoC s) ds
  end.

(** The assignments under [--- Save Data ---] for one sample. *)
Definition store (i : nat) (s : Sample) (st : State) : State :=
  {| SoC := s_SoC s;
     current_mode := s_mode s;
     SoC_array := <[i := s_SoC s]> (SoC_array st);
     mode_array := <[i := s_mode s]> (mode_array st);
     engine_power_array := <[i := s_engine s]> (engine_power_array st);
     motor_power_array := <[i := s_motor s]> (motor_power_array st);
     battery_power_array := <[i := s_battery s]> (battery_power_array st) |}.

Fixpoint store_all (i : nat) (ss : list Sample) (st : State) : State :=
  match ss with
  | [] => st
  | s :: ss' => store_all (S i) ss' (store i s st)
  end.

(** Consecutive stores into one array, from index [i] on. *)
Fixpoint fill {A : Type} (i : nat) (xs : list A) (arr : list A) : list A :=
  match xs with
  | [] => arr
  | x :: xs' => fill (S i) xs' (<[i := x]> arr)
  end.

(** The state after the first [j] iterations. *)
Definition state_after (cfg : Config) (demands : list Q) (j : nat) : State :=
  store_all 0 (samples cfg (SoC_init cfg) (take j demands)) (initial_state cfg).

(** The values [SoC] has before the clamp, recomputed from the arrays of a
    completed run: entry [i] is the discharge of [motor_power_array[i]] from
    [SoC_array[i-1]] (from [SoC_init] for the first). *)
Definition unclamped_SoC (cfg : Config) (st : State) : list Q :=
  zip_with (discharge cfg) (SoC_init cfg :: SoC_array st) (motor_power_array st).

(** ** The rules the loop is checked against

    The decision rules in the words of the design document, as relations
    over [Q]; the theorems below show that the code computes them. *)

(** Mode decision, in priority order, first match wins. *)
Inductive mode_rule (cfg : Config) (soc demand : Q) : Mode -> Prop :=
  | rule_1 :
      SoC_High cfg < soc -> demand < Max_Electric_Power cfg ->
      mode_rule cfg soc demand EV
  | rule_2 :
      ~ (SoC_High cfg < soc /\ demand < Max_Electric_Power cfg) ->
      soc < SoC_Low cfg ->
      mode_rule cfg soc demand ENGINE_ONLY
  | rule_3_hybrid :
      ~ (SoC_High cfg < soc /\ demand < Max_Electric_Power cfg) ->
      ~ soc < SoC_Low cfg ->
      Power_Demand_Threshold cfg < demand ->
      mode_rule cfg soc demand HYBRID
  | rule_3_ev :
      ~ (SoC_High cfg < soc /\ demand < Max_Electric_Power cfg) ->
      ~ soc < SoC_Low cfg ->
      ~ Power_Demand_Threshold cfg < demand ->
      mode_rule cfg soc demand EV.

(** Power split given the mode: [split_rule cfg m demand engine motor]. *)
Inductive split_rule (cfg : Config) (demand : Q) : Mode -> Q -> Q -> Prop :=
  | split_EV :
      demand <= Max_Electric_Power cfg ->
      split_rule cfg demand EV 0 demand
  | split_EV_saturated :
      ~ demand <= Max_Electric_Power cfg ->
      split_rule cfg demand EV
        (demand - Max_Electric_Power cfg) (Max_Electric_Power cfg)
  | split_HYBRID :
      split_rule cfg demand HYBRID
        (demand / 2) (Qmin (demand / 2) (Max_Electric_Power cfg))
  | split_ENGINE_ONLY :
      split_rule cfg demand ENGINE_ONLY demand 0.

(** Battery update before the clamp: [integration_rule cfg soc p soc']. *)
Inductive integration_rule (cfg : Config) (soc motor_power : Q) : Q -> Prop :=
  | discharging :
      0 < motor_power ->
      integration_rule cfg soc motor_power
        (soc - (motor_power * 1000 * dt cfg / battery_voltage cfg)
               / (battery_capacity_kWh cfg * 1000 * 3600 / battery_voltage cfg))
  | no_charge_change :
      motor_power <= 0 ->
      integration_rule cfg soc motor_power soc.

(** ** Inputs used in the examples *)

Definition with_total_time (t : Q) (cfg : Config) : Config :=
  {| dt := dt cfg; total_time := t;
     battery_capacity_kWh := battery_capacity_kWh cfg;
     battery_voltage := battery_voltage cfg;
     SoC_init := SoC_init cfg;
     battery_internal_resistance := battery_internal_resistance cfg;
     SoC_High := SoC_High cfg; SoC_Low := SoC_Low cfg;
     SoC_Cruise := SoC_Cruise cfg;
     Power_Demand_Threshold := Power_Demand_Threshold cfg;
     Max_Electric_Power := Max_Electric_Power cfg;
     regen_efficiency := regen_efficiency cfg |}.

Definition with_SoC_init (soc : Q) (cfg : Config) : Config :=
  {| dt := dt cfg; total_time := total_time cfg;
     battery_capacity_kWh := battery_capacity_kWh cfg;
     battery_voltage := battery_voltage cfg;
     SoC_init := soc;
     battery_internal_resistance := battery_internal_resistance cfg;
     SoC_High := SoC_High cfg; SoC_Low := SoC_Low cfg;
     SoC_Cruise := SoC_Cruise cfg;
     Power_Demand_Threshold := Power_Demand_Threshold cfg;
     Max_Electric_Power := Max_Electric_Power cfg;
     regen_efficiency := regen_efficiency cfg |}.

Definition with_SoC_thresholds (low high : Q) (cfg : Config) : Config :=
  {| dt := dt cfg; total_time := total_time cfg;
     battery_capacity_kWh := battery_capacity_kWh cfg;
     battery_voltage := battery_voltage cfg;
     SoC_init := SoC_init cfg;
     battery_internal_resistance := battery_internal_resistance cfg;
     SoC_High := high; SoC_Low := low;
     SoC_Cruise := SoC_Cruise cfg;
     Power_Demand_Threshold := Power_Demand_Threshold cfg;
     Max_Electric_Power := Max_Electric_Power cfg;
     regen_efficiency := regen_efficiency cfg |}.

(** The script's constants with a three-second run. *)
Definition three_seconds : Config := with_total_time 3 script_config.

(** One second from a state of charge of 0.9. *)
Definition one_second_from_high_SoC : Config :=
  with_SoC_init 0.9 (with_total_time 1 script_config).

(** Two seconds with the SoC thresholds exchanged: [SoC_Low] = 0.8 and
    [SoC_High] = 0.3. *)
Definition exchanged_thresholds : Config :=
  with_SoC_thresholds 0.8 0.3 (with_total_time 2 script_config).

(** ** Input generation and presentation

    The parts of sections 1 and 5 of the script that are arithmetic: the
    post-processing of the random draws and the labels of the mode axis.
    The draws of [np.random.normal] themselves are an input here. *)

(** [np.abs] on one entry. *)
Definition np_abs (x : Q) : Q := Qabs x.

(** [np.clip(a, a_min, a_max)] on one entry: [minimum(a_max, maximum(a, a_min))]. *)
Definition np_clip (a a_min a_max : Q) : Q := Qmin a_max (Qmax a a_min).

(** [np.clip(np.abs(np.random.normal(15, 10, len(time_array))), 0, 40)] *)
Definition power_demand_profile (draws : list Q) : list Q :=
  (fun a => np_clip a 0 40) <$> (np_abs <$> draws).

(** [np.clip(np.abs(np.random.normal(13, 5, len(time_array))), 0, 30)] *)
Definition speed_profile (draws : list Q) : list Q :=
  (fun a => np_clip a 0 30) <$> (np_abs <$> draws).

(** The tick labels [plt.yticks([0,1,2], mode_labels)] puts on the mode axis. *)
Definition mode_labels : list string :=
  ["EV Mode"; "Hybrid"; "Engine Only"]%string.

(** ** Quantities the further properties are stated with *)

(** The state of charge carried out of a sequence of steps. *)
Definition SoC_after (cfg : Config) (soc : Q) (demands : list Q) : Q :=
  fold_left (fun soc d => s_SoC (sample cfg soc d)) demands soc.

(** The fraction of the capacity one step at full motor power removes: the
    quotient [dQ / battery_capacity_C] for [battery_power = Max_Electric_Power]. *)
Definition max_step_discharge (cfg : Config) : Q :=
  Max_Electric_Power cfg * 1000.0 * dt cfg / battery_voltage cfg
  / battery_capacity_C cfg.

(** ** The step of the loop in binary64

    The same statements as above with the operations of the script's own
    arithmetic: IEEE 754 binary64, every operation rounded to nearest, ties
    to even.  [samples] lists what the loop records along a demand profile,
    as [samples] does for the exact embedding. *)

Module Binary64.

Local Open Scope float_scope.

Definition lt (x y : float) : bool := PrimFloat.ltb x y.
Definition le (x y : float) : bool := PrimFloat.leb x y.
Definition gt (x y : float) : bool := lt y x.

Definition min (a b : float) : float := if lt b a then b else a.
Definition max (a b : float) : float := if gt b a then b else a.

(** The constants the step reads. *)
Record Config : Set := {
  dt : float;
  battery_capacity_kWh : float;
  battery_voltage : float;
  SoC_init : float;
  SoC_High : float;
  SoC_Low : float;
  Power_Demand_Threshold : float;
  Max_Electric_Power : float
}.

Definition script_config : Config := {|
  dt := 1.0;
  battery_capacity_kWh := 10.0;
  battery_voltage := 200.0;
  SoC_init := 0.7;
  SoC_High := 0.8;
  SoC_Low := 0.3;
  Power_Demand_Threshold := 20.0;
  Max_Electric_Power := 30.0
|}.

Definition battery_capacity_Wh (cfg : Config) : float :=
  battery_capacity_kWh cfg * 1000.0.

Definition battery_capacity_C (cfg : Config) : float :=
  battery_capacity_Wh cfg * 3600 / battery_voltage cfg.

Definition determine_mode (cfg : Config) (SoC demand : float) : Z :=
  if gt SoC (SoC_High cfg) && lt demand (Max_Electric_Power cfg)
  then 0%Z
  else if lt SoC (SoC_Low cfg)
  then 2%Z
  else if gt demand (Power_Demand_Threshold cfg)
  then 1%Z
  else 0%Z.

Record PowerSplit : Set := { engine_power : float; motor_power : float }.

Definition power_split (cfg : Config) (current_mode : Z) (demand : float)
  : PowerSplit :=
  if (current_mode =? 0)%Z then
    if le demand (Max_Electric_Power cfg)
    then {| motor_power := demand; engine_power := 0.0 |}
    else {| motor_power := Max_Electric_Power cfg;
            engine_power := demand - Max_Electric_Power cfg |}
  else if (current_mode =? 1)%Z then
    {| engine_power := demand / 2.0;
       motor_power := min (demand / 2.0) (Max_Electric_Power cfg) |}
  else
    {| engine_power := demand; motor_power := 0.0 |}.

Definition discharge (cfg : Config) (SoC battery_power : float) : float :=
  let power_in_watts := battery_power * 1000.0 in
  if gt battery_power 0
  then
    let dQ := power_in_watts * dt cfg / battery_voltage cfg in
    SoC - dQ / battery_capacity_C cfg
  else SoC.

Definition clamp (SoC : float) : float := max 0.0 (min 1.0 SoC).

(** What one iteration records, and the state of charge it computed before
    the clamp. *)
Record Sample : Set := {
  s_SoC : float; s_mode : Z; s_engine : float; s_motor : float;
  s_battery : float; s_unclamped : float
}.

Definition sample (cfg : Config) (soc demand : float) : Sample :=
  let current_mode := determine_mode cfg soc demand in
  let split := power_split cfg current_mode demand in
  let battery_power := motor_power split in
  {| s_SoC := clamp (discharge cfg soc battery_power);
     s_mode := current_mode;
     s_engine := engine_power split;
     s_motor := motor_power split;
     s_battery := battery_power;
     s_unclamped := discharge cfg soc battery_power |}.

Fixpoint samples (cfg : Config) (soc : float) (demands : list float)
  : list Sample :=
  match demands with
  | [] => []
  | d :: ds => let s := sample cfg soc d in s :: samples cfg (s_SoC s) ds
  end.

(** The records of a run from [SoC_init]. *)
Definition run (cfg : Config) (demands : list float) : list Sample :=
  samples cfg (SoC_init cfg) demands.

End Binary64.

(** ** Comparisons, [min], [max] and the clamp *)

Lemma lt_iff (x y : Q) : Py.lt x y = true <-> x < y.
Proof.
  unfold Py.lt. rewrite negb_true_iff, <- not_true_iff_false, Qle_bool_iff.
  split; intros H; lra.
Qed.

Lemma le_iff (x y : Q) : Py.le x y = true <-> x <= y.
Proof. apply Qle_bool_iff. Qed.

Lemma gt_iff (x y : Q) : Py.gt x y = true <-> y < x.
Proof. apply lt_iff. Qed.

Lemma lt_false_iff (x y : Q) : Py.lt x y = false <-> y <= x.
Proof. rewrite <- not_true_iff_false, lt_iff. split; intros H; lra. Qed.

Lemma le_false_iff (x y : Q) : Py.le x y = false <-> y < x.
Proof. rewrite <- not_true_iff_false, le_iff. split; intros H; lra. Qed.

Lemma gt_false_iff (x y : Q) : Py.gt x y = false <-> x <= y.
Proof. apply lt_false_iff. Qed.

(** Turns every comparison of the goal and the context into an inequality
    over [Q] and leaves linear arithmetic. *)
Ltac by_cases_on_comparisons :=
  repeat match goal with
  | |- context [Py.lt ?x ?y] =>
      let E := fresh "E" in destruct (Py.lt x y) eqn:E;
      [apply lt_iff in E | apply lt_false_iff in E]
  | |- context [Py.gt ?x ?y] =>
      let E := fresh "E" in destruct (Py.gt x y) eqn:E;
      [apply gt_iff in E | apply gt_false_iff in E]
  | |- context [Py.le ?x ?y] =>
      let E := fresh "E" in destruct (Py.le x y) eqn:E;
      [apply le_iff in E | apply le_false_iff in E]
  end; cbn [andb orb negb] in *.

Lemma min_spec (a b : Q) :
  (b < a /\ Py.min a b = b) \/ (a <= b /\ Py.min a b = a).
Proof. unfold Py.min. by_cases_on_comparisons; [left | right]; done. Qed.

Lemma max_spec (a b : Q) :
  (a < b /\ Py.max a b = b) \/ (b <= a /\ Py.max a b = a).
Proof. unfold Py.max. by_cases_on_comparisons; [left | right]; done. Qed.

Ltac clamp_cases x :=
  unfold clamp;
  destruct (min_spec 1.0 x) as [[? ->] | [? ->]];
  [destruct (max_spec 0.0 x) as [[? ->] | [? ->]]
  | destruct (max_spec 0.0 1.0) as [[? ->] | [? ->]]]; lra.

Lemma clamp_bounds (x : Q) : 0 <= clamp x <= 1.
Proof. clamp_cases x. Qed.

Lemma clamp_inside (x : Q) : 0 <= x <= 1 -> clamp x == x.
Proof. intros [? ?]. clamp_cases x. Qed.

Lemma clamp_below (x : Q) : x < 0 -> clamp x == 0.
Proof. intros ?. clamp_cases x. Qed.

Lemma clamp_above (x : Q) : 1 < x -> clamp x == 1.
Proof. intros ?. clamp_cases x. Qed.

(** ** The loop stores the samples *)

Section LoopFacts.

Variable cfg : Config.
Variables power_demand_profile speed_profile : list Q.

Let body := loop_body cfg power_demand_profile speed_profile.
Let run := loop cfg power_demand_profile speed_profile.

Lemma loop_body_in_range (i : nat) (st : State) (demand : Q) :
  power_demand_profile !! i = Some demand ->
  (i < length speed_profile)%nat ->
  body i st = inr (store i (sample cfg (SoC st) demand) st).
Proof.
  intros Hd Hs. apply lookup_lt_is_Some_2 in Hs as [speed Hs].
  unfold body, loop_body. rewrite Hd, Hs. reflexivity.
Qed.

Lemma loop_body_out_of_range (i : nat) (st : State) :
  (length power_demand_profile <= i)%nat \/ (length speed_profile <= i)%nat ->
  body i st = inl Py.IndexError.
Proof.
  intros H. unfold body, loop_body.
  destruct (power_demand_profile !! i) eqn:Hd; [| reflexivity].
  destruct (speed_profile !! i) eqn:Hs; [| reflexivity].
  apply lookup_lt_Some in Hd, Hs. lia.
Qed.

Lemma loop_app (l1 l2 : list nat) (st : State) :
  run (l1 ++ l2) st =
  match run l1 st with Completed st' => run l2 st' | o => o end.
Proof.
  revert st. induction l1 as [| i l1 IH]; intros st; [reflexivity |].
  cbn. destruct (loop_body _ _ _ i st); [reflexivity | apply IH].
Qed.

(** [m] iterations from index [k] on, all within both profiles. *)
Lemma loop_seq_completed (m k : nat) (st : State) :
  (k + m <= length power_demand_profile)%nat ->
  (k + m <= length speed_profile)%nat ->
  run (seq k m) st =
  Completed
    (store_all k (samples cfg (SoC st) (take m (drop k power_demand_profile))) st).
Proof.
  revert k st. induction m as [| m IH]; intros k st Hd Hs; [reflexivity |].
  destruct (lookup_lt_is_Some_2 power_demand_profile k) as [d Hk]; [lia |].
  rewrite (drop_S _ _ _ Hk). cbn.
  fold body. rewrite (loop_body_in_range k st d Hk) by lia.
  fold run. rewrite IH by lia. reflexivity.
Qed.

End LoopFacts.

(** The outcome of a run in closed form: which exception, if any, where, and
    after how many completed iterations. *)
Lemma simulate_outcome (cfg : Config) (demands speeds : list Q) :
  simulate cfg demands speeds =
  if Qeq_bool (dt cfg) 0 then RaisedInSetup Py.ZeroDivisionError
  else if Qeq_bool (battery_voltage cfg) 0 then RaisedInSetup Py.ZeroDivisionError
  else
    let n := time_array_len cfg in
    let available := (length demands `min` length speeds)%nat in
    if (n <=? available)%nat
    then Completed (state_after cfg demands n)
    else RaisedInLoop Py.IndexError available (state_after cfg demands available).
Proof.
  unfold simulate.
  destruct (Qeq_bool (dt cfg) 0); [reflexivity |].
  destruct (Qeq_bool (battery_voltage cfg) 0); [reflexivity |].
  cbv zeta. set (n := time_array_len cfg).
  set (available := (length demands `min` length speeds)%nat).
  destruct (Nat.leb_spec n available) as [Hle | Hlt].
  - rewrite loop_seq_completed by lia. reflexivity.
  - replace n with (available + S (n - S available))%nat by lia.
    rewrite seq_app, loop_app, loop_seq_completed by lia.
    cbn [seq loop]. rewrite loop_body_out_of_range by lia. reflexivity.
Qed.

Lemma Qeq_bool_false (x y : Q) : ~ x == y -> Qeq_bool x y = false.
Proof.
  intros Hne. destruct (Qeq_bool x y) eqn:E; [| reflexivity].
  apply Qeq_bool_iff in E. contradiction.
Qed.

(** With non-zero [dt] and voltage and profiles at least as long as
    [time_array], the loop runs to its end. *)
Lemma simulate_completes (cfg : Config) (demands speeds : list Q) :
  ~ dt cfg == 0 -> ~ battery_voltage cfg == 0 ->
  (time_array_len cfg <= length demands)%nat ->
  (time_array_len cfg <= length speeds)%nat ->
  simulate cfg demands speeds =
  Completed (state_after cfg demands (time_array_len cfg)).
Proof.
  intros Hdt Hv Hd Hs. rewrite simulate_outcome.
  rewrite (Qeq_bool_false _ _ Hdt), (Qeq_bool_false _ _ Hv). cbv zeta.
  destruct (Nat.leb_spec (time_array_len cfg)
              (length demands `min` length speeds)); [reflexivity | lia].
Qed.

(** ** Contents of the arrays *)

Lemma fill_spec {A : Type} (z : A) (r : nat) (xs pre : list A) (k : nat) :
  length pre = k ->
  fill k xs (pre ++ replicate (length xs + r) z) = pre ++ xs ++ replicate r z.
Proof.
  revert pre k. induction xs as [| x xs IH]; intros pre k Hk; [reflexivity |].
  cbn [fill length Nat.add replicate].
  rewrite insert_app_r_alt by lia. replace (k - length pre)%nat with 0%nat by lia.
  cbn [insert list_insert]. rewrite (cons_middle x pre), app_assoc.
  rewrite IH by (rewrite length_app; cbn; lia).
  rewrite <- app_assoc. reflexivity.
Qed.

Lemma store_all_arrays (ss : list Sample) (k : nat) (st : State) :
  let st' := store_all k ss st in
  SoC_array st' = fill k (s_SoC <$> ss) (SoC_array st) /\
  mode_array st' = fill k (s_mode <$> ss) (mode_array st) /\
  engine_power_array st' = fill k (s_engine <$> ss) (engine_power_array st) /\
  motor_power_array st' = fill k (s_motor <$> ss) (motor_power_array st) /\
  battery_power_array st' = fill k (s_battery <$> ss) (battery_power_array st).
Proof.
  revert k st. induction ss as [| s ss IH]; intros k st; [done |].
  cbn [store_all fmap list_fmap fill]. apply (IH (S k) (store k s st)).
Qed.

Lemma length_samples (cfg : Config) (demands : list Q) (soc : Q) :
  length (samples cfg soc demands) = length demands.
Proof.
  revert soc. induction demands as [| d ds IH]; intros soc; [reflexivity |].
  cbn. by rewrite IH.
Qed.

(** After [j] iterations each array holds the [j] samples, then zeros. *)
Lemma state_after_arrays (cfg : Config) (demands : list Q) (j : nat) :
  (j <= time_array_len cfg)%nat -> (j <= length demands)%nat ->
  let st := state_after cfg demands j in
  let ss := samples cfg (SoC_init cfg) (take j demands) in
  let rest := (time_array_len cfg - j)%nat in
  SoC_array st = (s_SoC <$> ss) ++ replicate rest 0 /\
  mode_array st = (s_mode <$> ss) ++ replicate rest 0%Z /\
  engine_power_array st = (s_engine <$> ss) ++ replicate rest 0 /\
  motor_power_array st = (s_motor <$> ss) ++ replicate rest 0 /\
  battery_power_array st = (s_battery <$> ss) ++ replicate rest 0.
Proof.
  intros Hn Hd st ss rest.
  assert (Hlen : length ss = j).
  { unfold ss. rewrite length_samples, length_take. lia. }
  assert (Hsplit : time_array_len cfg = (j + rest)%nat) by (unfold rest; lia).
  destruct (store_all_arrays ss 0 (initial_state cfg)) as (H1 & H2 & H3 & H4 & H5).
  subst st. unfold state_after. fold ss.
  rewrite H1, H2, H3, H4, H5. cbn [initial_state SoC_array mode_array
    engine_power_array motor_power_array battery_power_array].
  rewrite Hsplit, <- Hlen.
  repeat split;
    match goal with
    | |- fill 0 (?f <$> ss) (replicate _ ?z) = _ =>
        rewrite <- (length_fmap f ss);
        apply (fill_spec z rest (f <$> ss) [] 0%nat eq_refl)
    end.
Qed.

Lemma store_all_SoC (ss : list Sample) (k : nat) (st : State) :
  SoC (store_all k ss st) = default (SoC st) (s_SoC <$> last ss).
Proof.
  revert k st. induction ss as [| s ss IH]; intros k st; [reflexivity |].
  cbn [store_all]. rewrite IH, last_cons. destruct (last ss); reflexivity.
Qed.

(** Every state a run can end in is the state after some number of
    completed iterations. *)
Lemma final_state_simulate (cfg : Config) (demands speeds : list Q) (st : State) :
  final_state (simulate cfg demands speeds) = Some st ->
  exists j : nat,
    (j <= time_array_len cfg)%nat /\ (j <= length demands)%nat /\
    (j <= length speeds)%nat /\ st = state_after cfg demands j.
Proof.
  rewrite simulate_outcome.
  destruct (Qeq_bool (dt cfg) 0); [discriminate |].
  destruct (Qeq_bool (battery_voltage cfg) 0); [discriminate |].
  cbv zeta. set (available := (length demands `min` length speeds)%nat).
  destruct (Nat.leb_spec (time_array_len cfg) available) as [Hle | Hlt];
    cbn [final_state]; intros [= <-].
  - exists (time_array_len cfg). repeat split; lia.
  - exists available. repeat split; lia.
Qed.

Lemma samples_SoC_bounds (cfg : Config) (demands : list Q) (soc : Q) :
  Forall (fun s => 0 <= s_SoC s <= 1) (samples cfg soc demands).
Proof.
  revert soc. induction demands as [| d ds IH]; intros soc; cbn [samples].
  - constructor.
  - constructor; [apply clamp_bounds | apply IH].
Qed.

(** *** The state of charge stays within [0, 1] *)

(** C1. Whatever the demand and speed sequences, and for an initial state of
    charge in [0, 1], every entry of [SoC_array] is within [0, 1] when the
    run ends (normally or by an exception raised in the loop), and so is the
    carried [SoC]; the array has one entry per element of [time_array].
    Each iteration stores and carries the clamped value. *)
Theorem SoC_within_bounds_at_every_step
    (cfg : Config) (demands speeds : list Q) (st : State) :
  0 <= SoC_init cfg <= 1 ->
  final_state (simulate cfg demands speeds) = Some st ->
  Forall (fun x => 0 <= x <= 1) (SoC_array st) /\
  length (SoC_array st) = time_array_len cfg /\
  0 <= SoC st <= 1.
Proof.
  intros Hinit Hrun.
  destruct (final_state_simulate _ _ _ _ Hrun) as (j & Hn & Hd & _ & ->).
  destruct (state_after_arrays cfg demands j Hn Hd) as (-> & _).
  pose proof (samples_SoC_bounds cfg (take j demands) (SoC_init cfg)) as Hss.
  split; [| split].
  - apply Forall_app. split.
    + apply Forall_fmap. exact Hss.
    + apply Forall_replicate. lra.
  - rewrite length_app, length_fmap, length_samples, length_take, length_replicate.
    lia.
  - unfold state_after. rewrite store_all_SoC.
    destruct (last _) as [s |] eqn:Hlast; cbn.
    + apply (proj1 (Forall_forall _ _) Hss s), last_Some_elem_of, Hlast.
    + exact Hinit.
Qed.

(** C1 at an adversarial input: three steps with the demand at ten times
    [Max_Electric_Power]. *)
Lemma SoC_within_bounds_adversarial_demand :
  exists st : State,
    final_state (simulate three_seconds (replicate 3 300) (replicate 3 13)) = Some st /\
    Forall (fun x => 0 <= x <= 1) (SoC_array st) /\
    length (SoC_array st) = 3%nat /\
    0 <= SoC st <= 1.
Proof.
  eexists. split; [vm_compute; reflexivity |].
  apply (SoC_within_bounds_at_every_step
           three_seconds (replicate 3 300) (replicate 3 13)).
  - vm_compute. split; discriminate.
  - vm_compute. reflexivity.
Defined.

(** *** Mode decision *)

Lemma mode_rule_functional (cfg : Config) (soc demand : Q) (m m' : Mode) :
  mode_rule cfg soc demand m -> mode_rule cfg soc demand m' -> m = m'.
Proof.
  intros H H'. destruct H; destruct H'; try reflexivity;
    exfalso; (lra || tauto).
Qed.

Lemma determine_mode_rule (cfg : Config) (soc demand : Q) :
  exists m : Mode,
    determine_mode cfg soc demand = mode_code m /\ mode_rule cfg soc demand m.
Proof.
  unfold determine_mode. by_cases_on_comparisons;
    first
      [ exists EV; split; [reflexivity | apply rule_1; lra]
      | exists ENGINE_ONLY; split; [reflexivity | apply rule_2; lra]
      | exists HYBRID; split; [reflexivity | apply rule_3_hybrid; lra]
      | exists EV; split; [reflexivity | apply rule_3_ev; lra] ].
Qed.

(** C2. For every SoC and demand the mode the loop selects is the one the
    priority rules give (rule 1: EV; else rule 2: ENGINE_ONLY; else rule 3:
    HYBRID above the demand threshold, EV otherwise), and the rules give no
    other; when the mode is ENGINE_ONLY the step has [engine_power = demand]
    and [motor_power = 0].  With the script's thresholds, SoC = 0.2 gives
    ENGINE_ONLY for any demand. *)
Theorem mode_follows_priority_rules (cfg : Config) (soc demand : Q) :
  (exists m : Mode,
     s_mode (sample cfg soc demand) = mode_code m /\
     mode_rule cfg soc demand m /\
     (forall m' : Mode, mode_rule cfg soc demand m' -> m' = m) /\
     match m with
     | ENGINE_ONLY =>
         s_engine (sample cfg soc demand) = demand /\
         s_motor (sample cfg soc demand) == 0
     | _ => True
     end) /\
  s_mode (sample script_config 0.2 demand) = mode_code ENGINE_ONLY /\
  s_engine (sample script_config 0.2 demand) = demand /\
  s_motor (sample script_config 0.2 demand) == 0.
Proof.
  split.
  - destruct (determine_mode_rule cfg soc demand) as (m & Hcode & Hrule).
    exists m. split; [exact Hcode |]. split; [exact Hrule |]. split.
    + intros m' H'. exact (mode_rule_functional _ _ _ _ _ H' Hrule).
    + destruct m; try exact I.
      unfold sample. cbn [s_engine s_motor]. rewrite Hcode. cbn. split; reflexivity.
  - assert (Hmode : determine_mode script_config 0.2 demand = 2%Z).
    { unfold determine_mode. reflexivity. }
    unfold sample. cbn [s_mode s_engine s_motor]. rewrite Hmode.
    cbn. repeat split; reflexivity.
Qed.

(** *** Power split *)

(** C3. For every demand and mode the engine and motor powers are those of
    the split rule: EV gives the whole demand to the motor up to
    [Max_Electric_Power] and the remainder to the engine; HYBRID gives
    [demand / 2] to the engine and [min(demand / 2, Max_Electric_Power)] to
    the motor, so that the part of [demand / 2] above the ceiling is supplied
    by neither; ENGINE_ONLY gives the demand to the engine.  With the script's
    constants, SoC = 0.5 and demand = 25 give HYBRID, 12.5 and 12.5. *)
Theorem power_split_follows_mode (cfg : Config) (m : Mode) (demand : Q) :
  (exists engine motor : Q,
     split_rule cfg demand m engine motor /\
     engine_power (power_split cfg (mode_code m) demand) == engine /\
     motor_power (power_split cfg (mode_code m) demand) == motor /\
     match m with
     | HYBRID =>
         engine + motor == demand - Qmax 0 (demand / 2 - Max_Electric_Power cfg)
     | _ => engine + motor == demand
     end) /\
  s_mode (sample script_config 0.5 25) = mode_code HYBRID /\
  s_engine (sample script_config 0.5 25) == 12.5 /\
  s_motor (sample script_config 0.5 25) == 12.5.
Proof.
  split; [| vm_compute; repeat split; reflexivity].
  destruct m; unfold power_split; cbn [mode_code Z.eqb Pos.eqb engine_power motor_power].
  - by_cases_on_comparisons.
    + exists 0, demand. split; [apply split_EV; lra |]. repeat split; lra.
    + exists (demand - Max_Electric_Power cfg), (Max_Electric_Power cfg).
      split; [apply split_EV_saturated; lra |]. repeat split; lra.
  - exists (demand / 2), (Qmin (demand / 2) (Max_Electric_Power cfg)).
    split; [apply split_HYBRID |].
    assert (Hhalf : demand / 2.0 == demand / 2) by (apply Qmult_comp; reflexivity).
    assert (Hdouble : demand == demand / 2 + demand / 2) by (field).
    set (half := demand / 2) in *. set (half' := demand / 2.0) in *.
    clearbody half half'.
    destruct (Q.min_spec half (Max_Electric_Power cfg)) as [[? Hm] | [? Hm]];
      destruct (Q.max_spec 0 (half - Max_Electric_Power cfg)) as [[? Hx] | [? Hx]];
      destruct (min_spec half' (Max_Electric_Power cfg)) as [[? ->] | [? ->]];
      repeat split; lra.
  - exists demand, 0. split; [apply split_ENGINE_ONLY |]. repeat split; lra.
Qed.

(** *** Battery update *)

Lemma clamp_is_max_min (x y : Q) : x == y -> clamp x == Qmax 0 (Qmin 1 y).
Proof.
  intros Hxy.
  destruct (Q.min_spec 1 y) as [[? Hmin] | [? Hmin]];
    destruct (Q.max_spec 0 (Qmin 1 y)) as [[? Hmax] | [? Hmax]];
    clamp_cases x.
Qed.

(** C4. For a configuration with non-zero voltage and capacity: the
    capacity in coulombs is [battery_capacity_Wh * 3600 / battery_voltage];
    with a positive motor power [p] the state of charge before the clamp is
    the old one minus [(p * 1000 * dt / battery_voltage) / battery_capacity_C],
    with [p <= 0] it is the old one; the step stores that value clamped to
    [0, 1]. *)
Theorem battery_update_follows_rule (cfg : Config) (soc p demand : Q) :
  ~ battery_voltage cfg == 0 ->
  ~ battery_capacity_kWh cfg == 0 ->
  battery_capacity_C cfg ==
    battery_capacity_kWh cfg * 1000 * 3600 / battery_voltage cfg /\
  (exists raw : Q,
     integration_rule cfg soc p raw /\
     discharge cfg soc p == raw /\
     clamp (discharge cfg soc p) == Qmax 0 (Qmin 1 raw)) /\
  s_SoC (sample cfg soc demand) =
    clamp (discharge cfg soc (s_motor (sample cfg soc demand))) /\
  s_battery (sample cfg soc demand) = s_motor (sample cfg soc demand).
Proof.
  intros Hv Hcap.
  assert (HC : battery_capacity_C cfg ==
               battery_capacity_kWh cfg * 1000 * 3600 / battery_voltage cfg).
  { unfold battery_capacity_C, battery_capacity_Wh. field. exact Hv. }
  split; [exact HC |]. split; [| split; reflexivity].
  unfold discharge. cbv zeta. by_cases_on_comparisons.
  - eexists. split; [apply discharging; exact E |].
    assert (Hraw : soc - p * 1000.0 * dt cfg / battery_voltage cfg / battery_capacity_C cfg ==
                   soc - p * 1000 * dt cfg / battery_voltage cfg /
                     (battery_capacity_kWh cfg * 1000 * 3600 / battery_voltage cfg)).
    { rewrite HC. field. repeat split; assumption. }
    split; [exact Hraw | apply clamp_is_max_min, Hraw].
  - exists soc. split; [apply no_charge_change; exact E |].
    split; [reflexivity | apply clamp_is_max_min; reflexivity].
Qed.

(** C4 on the script's constants, SoC = 0.7 and a motor power of 12.5 kW. *)
Lemma battery_update_example :
  ~ battery_voltage script_config == 0 /\
  ~ battery_capacity_kWh script_config == 0 /\
  exists raw : Q,
    integration_rule script_config 0.7 12.5 raw /\
    discharge script_config 0.7 12.5 == raw /\
    clamp (discharge script_config 0.7 12.5) == Qmax 0 (Qmin 1 raw).
Proof.
  assert (Hv : ~ battery_voltage script_config == 0) by (vm_compute; discriminate).
  assert (Hc : ~ battery_capacity_kWh script_config == 0) by (vm_compute; discriminate).
  split; [exact Hv |]. split; [exact Hc |].
  exact (proj1 (proj2 (battery_update_follows_rule script_config 0.7 12.5 25 Hv Hc))).
Defined.

(** *** The example of a demand above the motor limit at high SoC *)

(** With the script's constants the mode is EV only for a demand below
    [Max_Electric_Power]: the saturated branch of the EV split is never
    taken. *)
Lemma EV_is_never_saturated_in_script (soc demand : Q) :
  s_mode (sample script_config soc demand) = mode_code EV ->
  demand < Max_Electric_Power script_config /\
  s_motor (sample script_config soc demand) = demand.
Proof.
  unfold sample. cbn [s_mode s_motor]. intros Hmode.
  assert (Hlt : demand < Max_Electric_Power script_config).
  { revert Hmode. unfold determine_mode. cbn [mode_code].
    by_cases_on_comparisons; intros Hmode; try discriminate;
      cbn [Max_Electric_Power Power_Demand_Threshold script_config] in *; lra. }
  split; [exact Hlt |].
  rewrite Hmode. unfold power_split. cbn [mode_code Z.eqb].
  by_cases_on_comparisons; [reflexivity | lra].
Qed.

(** C5, as stated, fails: for SoC = 0.9 and demand = 35 the mode is not EV,
    the motor power is not 30 and the engine power is not 5. *)
Lemma high_SoC_demand_35_is_not_EV :
  s_mode (sample script_config 0.9 35) <> mode_code EV /\
  ~ s_motor (sample script_config 0.9 35) == 30 /\
  ~ s_engine (sample script_config 0.9 35) == 5.
Proof. repeat split; intros H; vm_compute in H; discriminate. Qed.

(** C5, amended. For SoC = 0.9 and demand = 35 with the script's constants:
    rule 1 fails because the demand is not below [Max_Electric_Power], rule
    2 fails, and rule 3 selects HYBRID because the demand exceeds
    [Power_Demand_Threshold]; the engine and the motor get 17.5 each, in
    the step function and in a one-step run alike. *)
Theorem high_SoC_demand_35_is_hybrid :
  Py.lt 35 (Max_Electric_Power script_config) = false /\
  mode_rule script_config 0.9 35 HYBRID /\
  s_mode (sample script_config 0.9 35) = mode_code HYBRID /\
  s_engine (sample script_config 0.9 35) == 17.5 /\
  s_motor (sample script_config 0.9 35) == 17.5 /\
  exists st : State,
    simulate one_second_from_high_SoC [35] [13] = Completed st /\
    mode_array st = [mode_code HYBRID] /\
    Forall2 Qeq (engine_power_array st) [17.5] /\
    Forall2 Qeq (motor_power_array st) [17.5].
Proof.
  split; [reflexivity |]. split.
  - apply rule_3_hybrid; cbn; lra.
  - split; [reflexivity |]. split; [reflexivity |]. split; [reflexivity |].
    eexists. split; [vm_compute; reflexivity |].
    split; [reflexivity |]. split; repeat constructor.
Qed.

(** *** No validation of the configuration *)

(** C6, as stated, fails.  With [SoC_Low] = 0.8 above [SoC_High] = 0.3 the
    run completes both of its steps; with a demand sequence one entry short,
    the first step is executed and stored before [IndexError] is raised in
    the second iteration. *)
Lemma invalid_configuration_is_not_rejected :
  SoC_High exchanged_thresholds <= SoC_Low exchanged_thresholds /\
  (exists st : State,
     simulate exchanged_thresholds [10; 10] [13; 13] = Completed st /\
     mode_array st = [mode_code EV; mode_code EV] /\
     Forall2 Qeq (motor_power_array st) [10; 10]) /\
  (length [10] <> time_array_len (with_total_time 2 script_config) /\
   exists st : State,
     simulate (with_total_time 2 script_config) [10] [13; 13] =
       RaisedInLoop Py.IndexError 1 st /\
     Forall2 Qeq (motor_power_array st) [10; 0]).
Proof.
  split; [vm_compute; discriminate |]. split.
  - eexists. split; [vm_compute; reflexivity |].
    split; [reflexivity | repeat constructor].
  - split; [vm_compute; discriminate |].
    eexists. split; [vm_compute; reflexivity | repeat constructor].
Qed.

(** C6, amended. The script checks nothing about its configuration or its
    inputs, and how a run ends depends on [dt], [battery_voltage] and the
    lengths alone (capacity non-zero): a zero [dt] or [battery_voltage]
    raises [ZeroDivisionError] before the loop; a profile with fewer entries
    than [time_array] raises [IndexError] at the first missing index, after
    the iterations before it have run; otherwise the loop completes all its
    iterations, whatever the order of [SoC_Low] and [SoC_High] and the signs
    of capacity and voltage. *)
Theorem run_outcome_without_validation (cfg : Config) (demands speeds : list Q) :
  ~ battery_capacity_kWh cfg == 0 ->
  match simulate cfg demands speeds with
  | RaisedInSetup e =>
      e = Py.ZeroDivisionError /\ (dt cfg == 0 \/ battery_voltage cfg == 0)
  | RaisedInLoop e i st =>
      e = Py.IndexError /\
      ~ dt cfg == 0 /\ ~ battery_voltage cfg == 0 /\
      i = (length demands `min` length speeds)%nat /\
      (i < time_array_len cfg)%nat /\
      st = state_after cfg demands i
  | Completed st =>
      ~ dt cfg == 0 /\ ~ battery_voltage cfg == 0 /\
      (time_array_len cfg <= length demands)%nat /\
      (time_array_len cfg <= length speeds)%nat /\
      st = state_after cfg demands (time_array_len cfg)
  end.
Proof.
  intros _. rewrite simulate_outcome.
  destruct (Qeq_bool (dt cfg) 0) eqn:Hdt.
  { split; [reflexivity | left; apply Qeq_bool_iff, Hdt]. }
  destruct (Qeq_bool (battery_voltage cfg) 0) eqn:Hv.
  { split; [reflexivity | right; apply Qeq_bool_iff, Hv]. }
  apply Qeq_bool_neq in Hdt, Hv. cbv zeta.
  destruct (Nat.leb_spec (time_array_len cfg)
              (length demands `min` length speeds)) as [Hle | Hlt].
  - repeat split; (assumption || lia).
  - repeat split; (assumption || lia).
Qed.

(** C6 amended, on the exchanged thresholds: the run completes. *)
Lemma exchanged_thresholds_run_completes :
  ~ battery_capacity_kWh exchanged_thresholds == 0 /\
  SoC_High exchanged_thresholds <= SoC_Low exchanged_thresholds /\
  simulate exchanged_thresholds [10; 10] [13; 13] =
    Completed (state_after exchanged_thresholds [10; 10] 2).
Proof.
  assert (Hcap : ~ battery_capacity_kWh exchanged_thresholds == 0)
    by (vm_compute; discriminate).
  split; [exact Hcap |]. split; [vm_compute; discriminate |].
  pose proof (run_outcome_without_validation
                exchanged_thresholds [10; 10] [13; 13] Hcap) as H.
  destruct (simulate exchanged_thresholds [10; 10] [13; 13]) as [st | e i st | e].
  - destruct H as (_ & _ & _ & _ & ->). reflexivity.
  - destruct H as (_ & _ & _ & -> & Hlt & _). vm_compute in Hlt. lia.
  - destruct H as (_ & [H | H]); vm_compute in H; discriminate.
Defined.

(** *** Zero demand *)

Lemma sample_zero_demand (cfg : Config) (soc demand : Q) :
  demand == 0 ->
  s_motor (sample cfg soc demand) <= 0 /\
  (0 <= Max_Electric_Power cfg -> s_motor (sample cfg soc demand) == 0).
Proof.
  intros Hd. unfold sample. cbn [s_motor].
  generalize (determine_mode cfg soc demand). intros m.
  unfold power_split.
  assert (Hhalf : demand / 2.0 == 0) by (rewrite Hd; reflexivity).
  destruct (m =? 0)%Z; [| destruct (m =? 1)%Z]; cbn [motor_power].
  - by_cases_on_comparisons; cbn [motor_power]; split; intros; lra.
  - destruct (min_spec (demand / 2.0) (Max_Electric_Power cfg)) as [[? ->] | [? ->]];
      split; intros; lra.
  - split; intros; lra.
Qed.

Lemma sample_without_discharge (cfg : Config) (soc soc0 demand : Q) :
  0 <= soc0 <= 1 -> soc == soc0 ->
  s_motor (sample cfg soc demand) <= 0 ->
  s_SoC (sample cfg soc demand) == soc0.
Proof.
  intros Hin Hsoc Hmotor. unfold sample in *. cbn [s_motor s_SoC] in *.
  unfold discharge. cbv zeta.
  destruct (Py.gt _ 0) eqn:E; [apply gt_iff in E; lra |].
  rewrite clamp_inside by lra. exact Hsoc.
Qed.

Lemma samples_zero_demand (cfg : Config) (soc0 : Q) (demands : list Q) (soc : Q) :
  0 <= soc0 <= 1 -> soc == soc0 ->
  Forall (fun d => d == 0) demands ->
  Forall (fun s => s_SoC s == soc0 /\
                   (0 <= Max_Electric_Power cfg -> s_motor s == 0))
         (samples cfg soc demands).
Proof.
  intros Hin. revert soc.
  induction demands as [| d ds IH]; intros soc Hsoc Hzero; cbn [samples].
  - constructor.
  - apply Forall_cons in Hzero as [Hd Hds].
    destruct (sample_zero_demand cfg soc d Hd) as [Hle Hmotor].
    pose proof (sample_without_discharge cfg soc soc0 d Hin Hsoc Hle) as Hkeep.
    constructor; [split; assumption | apply IH; assumption].
Qed.

(** C7. With a demand of 0 at every step and an initial SoC within [0, 1]
    (the profiles long enough, [dt] and the voltage non-zero, the motor
    limit non-negative), the run completes, every recorded SoC equals
    [SoC_init] and every recorded motor power is 0. *)
Theorem zero_demand_keeps_SoC (cfg : Config) (demands speeds : list Q) :
  ~ dt cfg == 0 -> ~ battery_voltage cfg == 0 ->
  0 <= Max_Electric_Power cfg ->
  (time_array_len cfg <= length demands)%nat ->
  (time_array_len cfg <= length speeds)%nat ->
  0 <= SoC_init cfg <= 1 ->
  Forall (fun d => d == 0) demands ->
  exists st : State,
    simulate cfg demands speeds = Completed st /\
    length (SoC_array st) = time_array_len cfg /\
    Forall (fun x => x == SoC_init cfg) (SoC_array st) /\
    Forall (fun p => p == 0) (motor_power_array st) /\
    SoC st == SoC_init cfg.
Proof.
  intros Hdt Hv Hmax Hd Hs Hinit Hzero.
  exists (state_after cfg demands (time_array_len cfg)). split.
  { apply simulate_completes; assumption. }
  destruct (state_after_arrays cfg demands (time_array_len cfg) (le_n _) Hd)
    as (HS & _ & _ & HM & _).
  assert (Hss := samples_zero_demand cfg (SoC_init cfg)
                   (take (time_array_len cfg) demands) (SoC_init cfg) Hinit
                   (Qeq_refl _) (Forall_take _ _ _ Hzero)).
  rewrite HS, HM, Nat.sub_diag, !app_nil_r. split; [| split; [| split]].
  - rewrite length_fmap, length_samples, length_take. lia.
  - apply Forall_fmap. eapply Forall_impl; [exact Hss |]. intros s [H _]. exact H.
  - apply Forall_fmap. eapply Forall_impl; [exact Hss |]. intros s [_ H]. exact (H Hmax).
  - unfold state_after. rewrite store_all_SoC.
    destruct (last _) as [s |] eqn:Hlast; cbn; [| reflexivity].
    apply last_Some_elem_of in Hlast.
    exact (proj1 (proj1 (Forall_forall _ _) Hss s Hlast)).
Qed.

(** C7 on a three-second run of the script's constants. *)
Lemma zero_demand_three_seconds :
  exists st : State,
    simulate three_seconds [0; 0; 0] [13; 13; 13] = Completed st /\
    length (SoC_array st) = 3%nat /\
    Forall (fun x => x == 0.7) (SoC_array st) /\
    Forall (fun p => p == 0) (motor_power_array st) /\
    SoC st == 0.7.
Proof.
  apply (zero_demand_keeps_SoC three_seconds [0; 0; 0] [13; 13; 13]).
  - vm_compute. discriminate.
  - vm_compute. discriminate.
  - vm_compute. discriminate.
  - vm_compute. lia.
  - vm_compute. lia.
  - vm_compute. split; discriminate.
  - repeat constructor.
Defined.

(** *** Discharge *)

Lemma discharge_decreases (cfg : Config) (soc p : Q) :
  0 < dt cfg -> 0 < battery_capacity_kWh cfg -> ~ battery_voltage cfg == 0 ->
  0 < p -> discharge cfg soc p < soc.
Proof.
  intros Hdt Hcap Hv Hp. unfold discharge. cbv zeta.
  rewrite (proj2 (gt_iff p 0) Hp).
  assert (Hdelta :
    p * 1000.0 * dt cfg / battery_voltage cfg / battery_capacity_C cfg ==
    p * dt cfg * / (battery_capacity_kWh cfg * 3600)).
  { unfold battery_capacity_C, battery_capacity_Wh. field. split; [lra | exact Hv]. }
  assert (0 < p * dt cfg * / (battery_capacity_kWh cfg * 3600)).
  { apply Qmult_lt_0_compat; [apply Qmult_lt_0_compat; assumption |].
    apply Qinv_lt_0_compat. lra. }
  lra.
Qed.

Lemma simulate_Completed_inv (cfg : Config) (demands speeds : list Q) (st : State) :
  simulate cfg demands speeds = Completed st ->
  (time_array_len cfg <= length demands)%nat /\
  st = state_after cfg demands (time_array_len cfg).
Proof.
  rewrite simulate_outcome.
  destruct (Qeq_bool (dt cfg) 0); [discriminate |].
  destruct (Qeq_bool (battery_voltage cfg) 0); [discriminate |].
  cbv zeta. destruct (Nat.leb_spec (time_array_len cfg)
                        (length demands `min` length speeds)); [| discriminate].
  intros [= <-]. split; [lia | reflexivity].
Qed.

Lemma discharge_le (cfg : Config) (soc p : Q) :
  0 < dt cfg -> 0 < battery_capacity_kWh cfg -> ~ battery_voltage cfg == 0 ->
  discharge cfg soc p <= soc.
Proof.
  intros Hdt Hcap Hv. destruct (Qlt_le_dec 0 p) as [Hp | Hp].
  - apply Qlt_le_weak, discharge_decreases; assumption.
  - unfold discharge. cbv zeta. rewrite (proj2 (gt_false_iff p 0) Hp). lra.
Qed.





(** *** The speed profile is not used *)

(** C9. A run is a function of the configuration (which holds the initial
    SoC) and the demand sequence: two speed sequences of the same length
    give the same outcome, hence the same five arrays. *)
Theorem speed_profile_has_no_effect
    (cfg : Config) (demands speeds speeds' : list Q) :
  length speeds = length speeds' ->
  simulate cfg demands speeds = simulate cfg demands speeds'.
Proof.
  intros Hlen. rewrite !simulate_outcome, Hlen. reflexivity.
Qed.

(** C9 on a three-second run with two different speed profiles. *)
Lemma speed_profile_has_no_effect_example :
  [13; 13; 13] <> [0; 30; 7] /\
  simulate three_seconds [25; 5; 35] [13; 13; 13] =
  simulate three_seconds [25; 5; 35] [0; 30; 7].
Proof.
  split; [discriminate |].
  apply (speed_profile_has_no_effect three_seconds [25; 5; 35]). reflexivity.
Defined.

(** *** Motor and battery power *)

Lemma power_split_motor_bounds (cfg : Config) (m : Z) (demand : Q) :
  0 <= Max_Electric_Power cfg -> 0 <= demand ->
  0 <= motor_power (power_split cfg m demand) <= Max_Electric_Power cfg.
Proof.
  intros Hmax Hd. unfold power_split.
  assert (Hhalf : 0 <= demand / 2.0).
  { apply Qle_shift_div_l; [reflexivity | lra]. }
  destruct (m =? 0)%Z; [| destruct (m =? 1)%Z].
  - by_cases_on_comparisons; cbn [motor_power]; lra.
  - cbn [motor_power].
    destruct (min_spec (demand / 2.0) (Max_Electric_Power cfg)) as [[? ->] | [? ->]];
      lra.
  - cbn [motor_power]. lra.
Qed.

Lemma samples_lookup (cfg : Config) (demands : list Q) (soc : Q) (i : nat) (s : Sample) :
  samples cfg soc demands !! i = Some s ->
  exists soc' d : Q, demands !! i = Some d /\ s = sample cfg soc' d.
Proof.
  revert soc i. induction demands as [| d ds IH]; intros soc i; [done |].
  destruct i as [| i]; cbn.
  - intros [= <-]. eauto.
  - apply IH.
Qed.

Lemma samples_battery_is_motor (cfg : Config) (demands : list Q) (soc : Q) :
  s_battery <$> samples cfg soc demands = s_motor <$> samples cfg soc demands.
Proof.
  revert soc. induction demands as [| d ds IH]; intros soc; [reflexivity |].
  cbn. f_equal. apply IH.
Qed.

(** C10. With a non-negative motor limit, in every state a run can end in:
    [battery_power_array] equals [motor_power_array], and at every index
    whose demand is non-negative the recorded motor power, and with it the
    battery power, lies within [0, Max_Electric_Power]; the split respects
    these bounds in every mode. *)
Theorem motor_power_within_limit
    (cfg : Config) (demands speeds : list Q) (st : State) :
  0 <= Max_Electric_Power cfg ->
  final_state (simulate cfg demands speeds) = Some st ->
  battery_power_array st = motor_power_array st /\
  (forall (i : nat) (d p : Q),
     demands !! i = Some d -> 0 <= d ->
     motor_power_array st !! i = Some p ->
     0 <= p <= Max_Electric_Power cfg) /\
  (forall (m : Z) (d : Q),
     0 <= d -> 0 <= motor_power (power_split cfg m d) <= Max_Electric_Power cfg).
Proof.
  intros Hmax Hrun.
  destruct (final_state_simulate _ _ _ _ Hrun) as (j & Hn & Hd & _ & ->).
  destruct (state_after_arrays cfg demands j Hn Hd) as (_ & _ & _ & -> & ->).
  split; [by rewrite samples_battery_is_motor |].
  split; [| intros m d; apply power_split_motor_bounds; exact Hmax].
  intros i d p Hdi Hdpos Hpi.
  apply lookup_app_Some in Hpi as [Hpi | [_ Hpi]].
  - apply list_lookup_fmap_Some in Hpi as (s & -> & Hs).
    apply samples_lookup in Hs as (soc' & d' & Hd' & ->).
    apply lookup_take_Some in Hd' as [Hd' _].
    assert (d' = d) as -> by congruence.
    apply power_split_motor_bounds; assumption.
  - apply lookup_replicate in Hpi as [-> _]. lra.
Qed.

(** C10 on a three-second run: demands of 25, 5 and 35 kW give motor powers
    of 12.5, 5 and 17.5 kW. *)
Lemma motor_power_within_limit_three_seconds :
  let st := state_after three_seconds [25; 5; 35] 3 in
  0 <= Max_Electric_Power three_seconds /\
  final_state (simulate three_seconds [25; 5; 35] [13; 13; 13]) = Some st /\
  Forall2 Qeq (motor_power_array st) [12.5; 5; 17.5] /\
  battery_power_array st = motor_power_array st /\
  (forall (i : nat) (d p : Q),
     [25; 5; 35] !! i = Some d -> 0 <= d ->
     motor_power_array st !! i = Some p ->
     0 <= p <= Max_Electric_Power three_seconds).
Proof.
  intros st.
  assert (Hmax : 0 <= Max_Electric_Power three_seconds) by (vm_compute; discriminate).
  assert (Hrun : final_state (simulate three_seconds [25; 5; 35] [13; 13; 13]) = Some st)
    by (vm_compute; reflexivity).
  split; [exact Hmax |]. split; [exact Hrun |].
  split; [vm_compute; repeat constructor |].
  pose proof (motor_power_within_limit
                three_seconds [25; 5; 35] [13; 13; 13] st Hmax Hrun) as (Heq & Hbound & _).
  split; [exact Heq | exact Hbound].
Defined.

(** * Further properties of the script *)

(** ** What a completed run stores at each index *)

Lemma samples_app (cfg : Config) (l1 l2 : list Q) (soc : Q) :
  samples cfg soc (l1 ++ l2) =
  samples cfg soc l1 ++ samples cfg (SoC_after cfg soc l1) l2.
Proof.
  revert soc. induction l1 as [| d l1 IH]; intros soc; [reflexivity |].
  cbn. f_equal. apply IH.
Qed.

Lemma SoC_after_snoc (cfg : Config) (l : list Q) (d soc : Q) :
  SoC_after cfg soc (l ++ [d]) = s_SoC (sample cfg (SoC_after cfg soc l) d).
Proof. unfold SoC_after. rewrite fold_left_app. reflexivity. Qed.

Lemma SoC_after_bounds (cfg : Config) (l : list Q) (soc : Q) :
  0 <= soc <= 1 -> 0 <= SoC_after cfg soc l <= 1.
Proof.
  revert soc. induction l as [| d l IH]; intros soc Hsoc; [exact Hsoc |].
  apply IH, clamp_bounds.
Qed.

Lemma samples_lookup_exact (cfg : Config) (demands : list Q) (soc : Q) (i : nat) (d : Q) :
  demands !! i = Some d ->
  samples cfg soc demands !! i =
  Some (sample cfg (SoC_after cfg soc (take i demands)) d).
Proof.
  revert soc i. induction demands as [| d' ds IH]; intros soc i; [done |].
  destruct i as [| i]; cbn.
  - intros [= ->]. reflexivity.
  - apply IH.
Qed.

(** In a completed run, index [i] of the five arrays holds the sample of step
    [i]: the step function applied to the state of charge the earlier
    demands leave and to [demands[i]]. *)
Lemma completed_step
    (cfg : Config) (demands speeds : list Q) (st : State) (i : nat) (d : Q) :
  simulate cfg demands speeds = Completed st ->
  (i < time_array_len cfg)%nat ->
  demands !! i = Some d ->
  let s := sample cfg (SoC_after cfg (SoC_init cfg) (take i demands)) d in
  SoC_array st !! i = Some (s_SoC s) /\
  mode_array st !! i = Some (s_mode s) /\
  engine_power_array st !! i = Some (s_engine s) /\
  motor_power_array st !! i = Some (s_motor s) /\
  battery_power_array st !! i = Some (s_battery s).
Proof.
  intros Hrun Hi Hd s.
  apply simulate_Completed_inv in Hrun as [Hlen ->].
  destruct (state_after_arrays cfg demands (time_array_len cfg) (le_n _) Hlen)
    as (-> & -> & -> & -> & ->).
  rewrite Nat.sub_diag, !app_nil_r.
  assert (Hs : samples cfg (SoC_init cfg) (take (time_array_len cfg) demands) !! i
               = Some s).
  { rewrite (samples_lookup_exact cfg _ _ i d) by (rewrite lookup_take_lt; done).
    rewrite take_take, Nat.min_l by lia. reflexivity. }
  rewrite !list_lookup_fmap, Hs. repeat split; reflexivity.
Qed.

Lemma state_after_lengths (cfg : Config) (demands : list Q) (j : nat) :
  (j <= time_array_len cfg)%nat -> (j <= length demands)%nat ->
  let st := state_after cfg demands j in
  length (SoC_array st) = time_array_len cfg /\
  length (mode_array st) = time_array_len cfg /\
  length (engine_power_array st) = time_array_len cfg /\
  length (motor_power_array st) = time_array_len cfg /\
  length (battery_power_array st) = time_array_len cfg.
Proof.
  intros Hn Hd st. subst st.
  destruct (state_after_arrays cfg demands j Hn Hd) as (-> & -> & -> & -> & ->).
  rewrite !length_app, !length_fmap, !length_replicate, length_samples, length_take.
  lia.
Qed.

(** ** Input generation *)

Lemma np_clip_abs (x hi : Q) :
  0 <= hi ->
  0 <= np_clip (np_abs x) 0 hi <= hi /\
  np_clip (np_abs x) 0 hi == Qmin hi (Qabs x).
Proof.
  intros Hhi. unfold np_clip, np_abs.
  pose proof (Qabs_nonneg x) as Habs.
  destruct (Q.max_spec (Qabs x) 0) as [[? Hmax] | [? Hmax]];
    destruct (Q.min_spec hi (Qmax (Qabs x) 0)) as [[? Hmin] | [? Hmin]];
    destruct (Q.min_spec hi (Qabs x)) as [[? Hmin'] | [? Hmin']];
    repeat split; lra.
Qed.

Lemma generated_profiles_bounds (draws : list Q) :
  Forall (fun d => 0 <= d <= 40) (power_demand_profile draws) /\
  Forall (fun v => 0 <= v <= 30) (speed_profile draws).
Proof.
  unfold power_demand_profile, speed_profile. split.
  - apply Forall_fmap, Forall_fmap, Forall_true. intros x.
    apply (np_clip_abs x 40). lra.
  - apply Forall_fmap, Forall_fmap, Forall_true. intros x.
    apply (np_clip_abs x 30). lra.
Qed.

(** X1. Whatever the random draws, the generated demand profile has one entry
    per draw, each within [0, 40], and the speed profile one per draw, each
    within [0, 30]; after [np.abs] the lower bound of [np.clip] never acts,
    so an entry is [min(limit, |draw|)]. *)
Theorem generated_profiles_within_limits (draws : list Q) :
  length (power_demand_profile draws) = length draws /\
  length (speed_profile draws) = length draws /\
  Forall (fun d => 0 <= d <= 40) (power_demand_profile draws) /\
  Forall (fun v => 0 <= v <= 30) (speed_profile draws) /\
  Forall2 (fun x d => d == Qmin 40 (Qabs x)) draws (power_demand_profile draws) /\
  Forall2 (fun x v => v == Qmin 30 (Qabs x)) draws (speed_profile draws).
Proof.
  unfold power_demand_profile, speed_profile.
  split; [by rewrite !length_fmap |]. split; [by rewrite !length_fmap |].
  assert (H40 : 0 <= 40) by lra. assert (H30 : 0 <= 30) by lra.
  split; [| split; [| split]].
  - apply Forall_fmap, Forall_fmap, Forall_true. intros x.
    apply (np_clip_abs x 40 H40).
  - apply Forall_fmap, Forall_fmap, Forall_true. intros x.
    apply (np_clip_abs x 30 H30).
  - apply Forall2_fmap_r, Forall2_fmap_r, Forall_Forall2_diag, Forall_true.
    intros x. apply (np_clip_abs x 40 H40).
  - apply Forall2_fmap_r, Forall2_fmap_r, Forall_Forall2_diag, Forall_true.
    intros x. apply (np_clip_abs x 30 H30).
Qed.

(** X2. Profiles generated from [len(time_array)] draws each are long enough
    for the loop: with non-zero [dt], voltage and capacity the run raises
    nothing and leaves five arrays of [len(time_array)] entries, the length
    of [time_array] they are plotted against. *)
Theorem run_on_generated_profiles_completes
    (cfg : Config) (demand_draws speed_draws : list Q) :
  ~ dt cfg == 0 -> ~ battery_voltage cfg == 0 ->
  ~ battery_capacity_kWh cfg == 0 ->
  length demand_draws = time_array_len cfg ->
  length speed_draws = time_array_len cfg ->
  exists st : State,
    simulate cfg (power_demand_profile demand_draws) (speed_profile speed_draws)
      = Completed st /\
    length (SoC_array st) = length (time_array cfg) /\
    length (mode_array st) = length (time_array cfg) /\
    length (engine_power_array st) = length (time_array cfg) /\
    length (motor_power_array st) = length (time_array cfg) /\
    length (battery_power_array st) = length (time_array cfg).
Proof.
  intros Hdt Hv _ Hd Hs.
  assert (Hd' : (time_array_len cfg <= length (power_demand_profile demand_draws))%nat).
  { unfold power_demand_profile. rewrite !length_fmap. lia. }
  assert (Hs' : (time_array_len cfg <= length (speed_profile speed_draws))%nat).
  { unfold speed_profile. rewrite !length_fmap. lia. }
  eexists. split; [apply simulate_completes; assumption |].
  unfold time_array. rewrite length_fmap, length_seq.
  apply state_after_lengths; [lia | exact Hd'].
Qed.

(** X2 on the script's constants: 1800 steps. *)
Lemma script_run_completes :
  time_array_len script_config = 1800%nat /\
  exists st : State,
    simulate script_config (power_demand_profile (replicate 1800 (-15)))
                           (speed_profile (replicate 1800 13))
      = Completed st /\
    length (SoC_array st) = length (time_array script_config) /\
    length (mode_array st) = length (time_array script_config) /\
    length (engine_power_array st) = length (time_array script_config) /\
    length (motor_power_array st) = length (time_array script_config) /\
    length (battery_power_array st) = length (time_array script_config).
Proof.
  split; [vm_compute; reflexivity |].
  apply (run_on_generated_profiles_completes script_config).
  - vm_compute. discriminate.
  - vm_compute. discriminate.
  - vm_compute. discriminate.
  - vm_compute. reflexivity.
  - vm_compute. reflexivity.
Defined.

(** ** Power balance *)

Lemma sample_supply (cfg : Config) (soc demand : Q) :
  s_engine (sample cfg soc demand) + s_motor (sample cfg soc demand) <= demand /\
  (demand <= 2 * Max_Electric_Power cfg ->
   s_engine (sample cfg soc demand) + s_motor (sample cfg soc demand) == demand).
Proof.
  unfold sample. cbn [s_engine s_motor].
  generalize (determine_mode cfg soc demand). intros m. unfold power_split.
  assert (Hdouble : demand == demand / 2.0 + demand / 2.0) by field.
  set (half := demand / 2.0) in *. clearbody half.
  destruct (m =? 0)%Z; [| destruct (m =? 1)%Z].
  - by_cases_on_comparisons; cbn [engine_power motor_power]; split; intros; lra.
  - cbn [engine_power motor_power].
    destruct (min_spec half (Max_Electric_Power cfg)) as [[? ->] | [? ->]];
      split; intros; lra.
  - cbn [engine_power motor_power]. split; intros; lra.
Qed.

Lemma sample_engine_bounds (cfg : Config) (soc demand : Q) :
  0 <= Max_Electric_Power cfg -> 0 <= demand ->
  0 <= s_engine (sample cfg soc demand) <= demand /\
  s_motor (sample cfg soc demand) <= demand.
Proof.
  intros Hmax Hd. unfold sample. cbn [s_engine s_motor].
  generalize (determine_mode cfg soc demand). intros m. unfold power_split.
  assert (Hdouble : demand == demand / 2.0 + demand / 2.0) by field.
  assert (Hhalf : 0 <= demand / 2.0).
  { apply Qle_shift_div_l; [reflexivity | lra]. }
  set (half := demand / 2.0) in *. clearbody half.
  destruct (m =? 0)%Z; [| destruct (m =? 1)%Z].
  - by_cases_on_comparisons; cbn [engine_power motor_power]; repeat split; lra.
  - cbn [engine_power motor_power].
    destruct (min_spec half (Max_Electric_Power cfg)) as [[? ->] | [? ->]];
      repeat split; lra.
  - cbn [engine_power motor_power]. repeat split; lra.
Qed.

(** X4. With a non-negative motor limit, at every step of a completed run
    whose demand is non-negative the engine power lies between 0 and the
    demand, and the motor power does not exceed the demand. *)
Theorem engine_power_within_demand
    (cfg : Config) (demands speeds : list Q) (st : State) (i : nat) (d e m : Q) :
  0 <= Max_Electric_Power cfg ->
  simulate cfg demands speeds = Completed st ->
  demands !! i = Some d -> 0 <= d ->
  engine_power_array st !! i = Some e ->
  motor_power_array st !! i = Some m ->
  0 <= e <= d /\ m <= d.
Proof.
  intros Hmax Hrun Hd Hdpos He Hm.
  assert (Hi : (i < time_array_len cfg)%nat).
  { apply lookup_lt_Some in He.
    apply simulate_Completed_inv in Hrun as [Hlen ->].
    destruct (state_after_lengths cfg demands _ (le_n _) Hlen) as (_ & _ & <- & _).
    exact He. }
  destruct (completed_step cfg demands speeds st i d Hrun Hi Hd)
    as (_ & _ & He' & Hm' & _).
  rewrite He' in He. rewrite Hm' in Hm.
  injection He as <-. injection Hm as <-.
  apply sample_engine_bounds; assumption.
Qed.

(** X4 on a three-second run, at the step with a demand of 5 kW. *)
Lemma engine_power_within_demand_example :
  let st := state_after three_seconds [25; 5; 70] 3 in
  exists e m : Q,
    engine_power_array st !! 1%nat = Some e /\
    motor_power_array st !! 1%nat = Some m /\
    0 <= e <= 5 /\ m <= 5.
Proof.
  intros st. eexists _, _. split; [vm_compute; reflexivity |].
  split; [vm_compute; reflexivity |].
  apply (engine_power_within_demand
           three_seconds [25; 5; 70] [13; 13; 13] st 1 5).
  - vm_compute. discriminate.
  - vm_compute. reflexivity.
  - reflexivity.
  - vm_compute. discriminate.
  - vm_compute. reflexivity.
  - vm_compute. reflexivity.
Defined.

(** ** EV mode without engine *)

Lemma sample_EV_engine_off (cfg : Config) (soc demand : Q) :
  Power_Demand_Threshold cfg <= Max_Electric_Power cfg ->
  s_mode (sample cfg soc demand) = mode_code EV ->
  demand <= Max_Electric_Power cfg /\
  s_engine (sample cfg soc demand) == 0 /\
  s_motor (sample cfg soc demand) = demand.
Proof.
  intros Hthr. unfold sample. cbn [s_mode s_engine s_motor]. intros Hmode.
  assert (Hle : demand <= Max_Electric_Power cfg).
  { revert Hmode. unfold determine_mode. cbn [mode_code].
    by_cases_on_comparisons; intros Hmode; try discriminate; lra. }
  split; [exact Hle |].
  rewrite Hmode. unfold power_split. cbn [mode_code Z.eqb].
  by_cases_on_comparisons; cbn [engine_power motor_power];
    [split; [lra | reflexivity] | lra].
Qed.

(** X5. When [Power_Demand_Threshold] does not exceed [Max_Electric_Power]
    (20 and 30 in the script), a step recorded as EV mode has a demand
    within the motor limit, an engine power of 0 and the motor supplying
    the whole demand: the branch of the EV split that starts the engine is
    never taken. *)
Theorem EV_mode_runs_without_engine
    (cfg : Config) (demands speeds : list Q) (st : State) (i : nat) (d : Q) :
  Power_Demand_Threshold cfg <= Max_Electric_Power cfg ->
  simulate cfg demands speeds = Completed st ->
  demands !! i = Some d ->
  mode_array st !! i = Some (mode_code EV) ->
  d <= Max_Electric_Power cfg /\
  motor_power_array st !! i = Some d /\
  exists e : Q, engine_power_array st !! i = Some e /\ e == 0.
Proof.
  intros Hthr Hrun Hd Hmode.
  assert (Hi : (i < time_array_len cfg)%nat).
  { apply lookup_lt_Some in Hmode.
    apply simulate_Completed_inv in Hrun as [Hlen ->].
    destruct (state_after_lengths cfg demands _ (le_n _) Hlen) as (_ & <- & _).
    exact Hmode. }
  destruct (completed_step cfg demands speeds st i d Hrun Hi Hd)
    as (_ & Hmode' & He' & Hm' & _).
  rewrite Hmode' in Hmode. injection Hmode as Hmode.
  destruct (sample_EV_engine_off cfg _ d Hthr Hmode) as (Hle & He & Hm).
  split; [exact Hle |]. split; [by rewrite Hm', Hm |].
  eexists. split; [exact He' | exact He].
Qed.

(** X5 on a three-second run of the script's constants: the step with a
    demand of 5 kW is in EV mode. *)
Lemma EV_mode_runs_without_engine_example :
  let st := state_after three_seconds [25; 5; 70] 3 in
  Power_Demand_Threshold three_seconds <= Max_Electric_Power three_seconds /\
  mode_array st !! 1%nat = Some (mode_code EV) /\
  5 <= Max_Electric_Power three_seconds /\
  motor_power_array st !! 1%nat = Some 5 /\
  exists e : Q, engine_power_array st !! 1%nat = Some e /\ e == 0.
Proof.
  intros st.
  assert (Hthr : Power_Demand_Threshold three_seconds
                 <= Max_Electric_Power three_seconds) by (vm_compute; discriminate).
  assert (Hmode : mode_array st !! 1%nat = Some (mode_code EV))
    by (vm_compute; reflexivity).
  split; [exact Hthr |]. split; [exact Hmode |].
  apply (EV_mode_runs_without_engine
           three_seconds [25; 5; 70] [13; 13; 13] st 1 5 Hthr);
    [vm_compute; reflexivity | reflexivity | exact Hmode].
Defined.

(** ** The state of charge along a run *)

Lemma clamp_spec (x : Q) :
  (x < 0 /\ clamp x == 0) \/ (0 <= x <= 1 /\ clamp x == x) \/ (1 < x /\ clamp x == 1).
Proof.
  destruct (Qlt_le_dec x 0) as [Hneg | Hpos].
  - left. split; [exact Hneg | apply clamp_below, Hneg].
  - destruct (Qlt_le_dec 1 x) as [Hbig | Hsmall].
    + right. right. split; [exact Hbig | apply clamp_above, Hbig].
    + right. left. split; [split; assumption | apply clamp_inside; split; assumption].
Qed.

(** The voltage cancels: a step at a positive power [p] removes the fraction
    [p * dt / (battery_capacity_kWh * 3600)] of the capacity. *)
Lemma discharge_closed_form (cfg : Config) (soc p : Q) :
  ~ battery_voltage cfg == 0 -> ~ battery_capacity_kWh cfg == 0 ->
  discharge cfg soc p ==
  soc - Qmax p 0 * (dt cfg / (battery_capacity_kWh cfg * 3600)).
Proof.
  intros Hv Hcap. unfold discharge. cbv zeta.
  destruct (Q.max_spec p 0) as [[Hlt Hmax] | [Hle Hmax]]; rewrite Hmax.
  - rewrite (proj2 (gt_false_iff p 0)) by lra. lra.
  - destruct (Py.gt p 0) eqn:E.
    + unfold battery_capacity_C, battery_capacity_Wh. field. split; assumption.
    + apply gt_false_iff in E. assert (Hp : p == 0) by lra. rewrite Hp. lra.
Qed.

Lemma sample_SoC_le (cfg : Config) (soc demand : Q) :
  0 < dt cfg -> 0 < battery_capacity_kWh cfg -> ~ battery_voltage cfg == 0 ->
  0 <= soc <= 1 ->
  s_SoC (sample cfg soc demand) <= soc.
Proof.
  intros Hdt Hcap Hv Hsoc. unfold sample. cbn [s_SoC].
  pose proof (discharge_le cfg soc
                (motor_power (power_split cfg (determine_mode cfg soc demand) demand))
                Hdt Hcap Hv) as Hle.
  destruct (clamp_spec (discharge cfg soc
              (motor_power (power_split cfg (determine_mode cfg soc demand) demand))))
    as [[? ->] | [[? ->] | [? ->]]]; lra.
Qed.

Lemma samples_never_increase (cfg : Config) (demands : list Q) :
  0 < dt cfg -> 0 < battery_capacity_kWh cfg -> ~ battery_voltage cfg == 0 ->
  forall soc : Q,
    0 <= soc <= 1 ->
    Sorted (fun x y => y <= x) (soc :: (s_SoC <$> samples cfg soc demands)).
Proof.
  intros Hdt Hcap Hv. induction demands as [| d ds IH]; intros soc Hsoc.
  - repeat constructor.
  - cbn [samples fmap list_fmap].
    constructor; [apply IH, clamp_bounds |].
    constructor. apply sample_SoC_le; assumption.
Qed.

(** X6. The battery is never charged: in a completed run (positive [dt] and
    capacity, non-zero voltage, initial SoC within [0, 1]) the recorded SoC
    never rises from one step to the next, and starts at or below
    [SoC_init], whatever the demand, negative demand included. *)
Theorem SoC_never_increases (cfg : Config) (demands speeds : list Q) (st : State) :
  0 < dt cfg -> 0 < battery_capacity_kWh cfg -> ~ battery_voltage cfg == 0 ->
  0 <= SoC_init cfg <= 1 ->
  simulate cfg demands speeds = Completed st ->
  Sorted (fun x y => y <= x) (SoC_init cfg :: SoC_array st).
Proof.
  intros Hdt Hcap Hv Hinit Hrun.
  apply simulate_Completed_inv in Hrun as [Hlen ->].
  destruct (state_after_arrays cfg demands _ (le_n _) Hlen) as (-> & _).
  rewrite Nat.sub_diag, app_nil_r.
  apply samples_never_increase; assumption.
Qed.

(** X6 on a three-second run with a negative (braking) demand in the middle. *)
Lemma SoC_never_increases_three_seconds :
  let st := state_after three_seconds [25; -40; 10] 3 in
  simulate three_seconds [25; -40; 10] [13; 13; 13] = Completed st /\
  Sorted (fun x y => y <= x) (SoC_init three_seconds :: SoC_array st).
Proof.
  intros st.
  assert (Hrun : simulate three_seconds [25; -40; 10] [13; 13; 13] = Completed st)
    by (vm_compute; reflexivity).
  split; [exact Hrun |].
  apply (SoC_never_increases three_seconds [25; -40; 10] [13; 13; 13] st).
  - vm_compute. reflexivity.
  - vm_compute. reflexivity.
  - vm_compute. discriminate.
  - vm_compute. split; discriminate.
  - exact Hrun.
Defined.

(** ** Engine Only is final *)

Lemma determine_mode_low_SoC (cfg : Config) (soc demand : Q) :
  SoC_Low cfg <= SoC_High cfg -> soc < SoC_Low cfg ->
  determine_mode cfg soc demand = mode_code ENGINE_ONLY.
Proof.
  intros Horder Hlow. unfold determine_mode.
  by_cases_on_comparisons; try reflexivity; lra.
Qed.

Lemma determine_mode_engine_only_inv (cfg : Config) (soc demand : Q) :
  determine_mode cfg soc demand = mode_code ENGINE_ONLY -> soc < SoC_Low cfg.
Proof.
  unfold determine_mode.
  by_cases_on_comparisons; cbn [mode_code]; intros H; (discriminate || lra).
Qed.

Lemma sample_low_SoC (cfg : Config) (soc soc0 demand : Q) :
  SoC_Low cfg <= SoC_High cfg -> 0 <= soc0 <= 1 -> soc0 < SoC_Low cfg ->
  soc == soc0 ->
  s_mode (sample cfg soc demand) = mode_code ENGINE_ONLY /\
  s_engine (sample cfg soc demand) = demand /\
  s_motor (sample cfg soc demand) == 0 /\
  s_SoC (sample cfg soc demand) == soc0.
Proof.
  intros Horder Hin Hlow Hsoc.
  assert (Hmode : determine_mode cfg soc demand = mode_code ENGINE_ONLY)
    by (apply determine_mode_low_SoC; lra).
  assert (Hmotor : s_motor (sample cfg soc demand) == 0).
  { unfold sample. cbn [s_motor]. rewrite Hmode. reflexivity. }
  split; [exact Hmode |]. split; [| split; [exact Hmotor |]].
  - unfold sample. cbn [s_engine]. rewrite Hmode. reflexivity.
  - apply sample_without_discharge; [exact Hin | exact Hsoc | lra].
Qed.

Lemma SoC_after_low_SoC (cfg : Config) (soc0 : Q) (demands : list Q) (soc : Q) :
  SoC_Low cfg <= SoC_High cfg -> 0 <= soc0 <= 1 -> soc0 < SoC_Low cfg ->
  soc == soc0 ->
  SoC_after cfg soc demands == soc0.
Proof.
  intros Horder Hin Hlow. revert soc.
  induction demands as [| d ds IH]; intros soc Hsoc; [exact Hsoc |].
  apply IH. apply (sample_low_SoC cfg soc soc0 d); assumption.
Qed.

Lemma SoC_after_app (cfg : Config) (l1 l2 : list Q) (soc : Q) :
  SoC_after cfg soc (l1 ++ l2) = SoC_after cfg (SoC_after cfg soc l1) l2.
Proof. unfold SoC_after. apply fold_left_app. Qed.

(** X7. With [SoC_Low <= SoC_High] and an initial SoC within [0, 1]: once a
    step of a completed run is recorded as Engine Only, every later step is
    Engine Only as well, with a motor power of 0 and the same recorded SoC:
    below [SoC_Low] the battery no longer takes part in the run. *)
Theorem engine_only_is_final
    (cfg : Config) (demands speeds : list Q) (st : State) (i j : nat) :
  SoC_Low cfg <= SoC_High cfg ->
  0 <= SoC_init cfg <= 1 ->
  simulate cfg demands speeds = Completed st ->
  mode_array st !! i = Some (mode_code ENGINE_ONLY) ->
  (i <= j < time_array_len cfg)%nat ->
  mode_array st !! j = Some (mode_code ENGINE_ONLY) /\
  (exists m : Q, motor_power_array st !! j = Some m /\ m == 0) /\
  (exists x y : Q,
     SoC_array st !! i = Some x /\ SoC_array st !! j = Some y /\
     y == x /\ x < SoC_Low cfg).
Proof.
  intros Horder Hinit Hrun Hmode [Hij Hj].
  destruct (simulate_Completed_inv _ _ _ _ Hrun) as [Hlen _].
  destruct (lookup_lt_is_Some_2 demands i) as [di Hdi]; [lia |].
  destruct (lookup_lt_is_Some_2 demands j) as [dj Hdj]; [lia |].
  destruct (completed_step cfg demands speeds st i di Hrun ltac:(lia) Hdi)
    as (HSi & HMi & _).
  destruct (completed_step cfg demands speeds st j dj Hrun Hj Hdj)
    as (HSj & HMj & _ & HPj & _).
  set (soc_i := SoC_after cfg (SoC_init cfg) (take i demands)) in *.
  set (soc_j := SoC_after cfg (SoC_init cfg) (take j demands)) in *.
  rewrite HMi in Hmode. injection Hmode as Hmode.
  apply determine_mode_engine_only_inv in Hmode.
  assert (Hin : 0 <= soc_i <= 1) by (apply SoC_after_bounds, Hinit).
  assert (Hsoc_j : soc_j == soc_i).
  { subst soc_j. replace (take j demands)
      with (take i demands ++ take (j - i) (drop i demands)).
    - rewrite SoC_after_app. fold soc_i.
      apply SoC_after_low_SoC; (assumption || reflexivity).
    - rewrite take_take_drop. f_equal. lia. }
  destruct (sample_low_SoC cfg soc_i soc_i di Horder Hin Hmode (Qeq_refl _))
    as (_ & _ & _ & HSi').
  destruct (sample_low_SoC cfg soc_j soc_i dj Horder Hin Hmode Hsoc_j)
    as (HMj' & _ & HPj' & HSj').
  split; [by rewrite HMj, HMj' |].
  split; [eexists; split; [exact HPj | exact HPj'] |].
  eexists _, _. split; [exact HSi |]. split; [exact HSj |].
  split; [rewrite HSj', HSi'; reflexivity | rewrite HSi'; exact Hmode].
Qed.

(** X7 on a three-second run that starts at SoC = 0.2. *)
Lemma engine_only_is_final_example :
  let cfg := with_SoC_init 0.2 three_seconds in
  let st := state_after cfg [25; 5; 70] 3 in
  mode_array st !! 0%nat = Some (mode_code ENGINE_ONLY) /\
  mode_array st !! 2%nat = Some (mode_code ENGINE_ONLY) /\
  (exists m : Q, motor_power_array st !! 2%nat = Some m /\ m == 0) /\
  (exists x y : Q,
     SoC_array st !! 0%nat = Some x /\ SoC_array st !! 2%nat = Some y /\
     y == x /\ x < SoC_Low cfg).
Proof.
  intros cfg st.
  assert (Hmode : mode_array st !! 0%nat = Some (mode_code ENGINE_ONLY))
    by (vm_compute; reflexivity).
  split; [exact Hmode |].
  apply (engine_only_is_final cfg [25; 5; 70] [13; 13; 13] st 0 2).
  - vm_compute. discriminate.
  - vm_compute. split; discriminate.
  - vm_compute. reflexivity.
  - exact Hmode.
  - vm_compute. lia.
Defined.

(** ** How far the battery is drained *)

Lemma max_step_discharge_closed_form (cfg : Config) :
  ~ battery_voltage cfg == 0 -> ~ battery_capacity_kWh cfg == 0 ->
  max_step_discharge cfg ==
  Max_Electric_Power cfg * (dt cfg / (battery_capacity_kWh cfg * 3600)).
Proof.
  intros Hv Hcap. unfold max_step_discharge, battery_capacity_C, battery_capacity_Wh.
  field. split; assumption.
Qed.

Lemma sample_motor_le_limit (cfg : Config) (soc demand : Q) :
  0 <= Max_Electric_Power cfg ->
  s_motor (sample cfg soc demand) <= Max_Electric_Power cfg.
Proof.
  intros Hmax. unfold sample. cbn [s_motor].
  generalize (determine_mode cfg soc demand). intros m. unfold power_split.
  destruct (m =? 0)%Z; [| destruct (m =? 1)%Z].
  - by_cases_on_comparisons; cbn [motor_power]; lra.
  - cbn [motor_power].
    destruct (min_spec (demand / 2.0) (Max_Electric_Power cfg)) as [[? ->] | [? ->]];
      lra.
  - cbn [motor_power]. lra.
Qed.

(** The state of charge before the clamp in a step. *)
Lemma sample_raw_SoC (cfg : Config) (soc demand : Q) :
  0 < dt cfg -> 0 < battery_capacity_kWh cfg -> ~ battery_voltage cfg == 0 ->
  0 <= Max_Electric_Power cfg ->
  SoC_Low cfg <= SoC_High cfg ->
  0 <= soc <= 1 ->
  let raw := discharge cfg soc (s_motor (sample cfg soc demand)) in
  raw <= soc /\
  (raw == soc \/ SoC_Low cfg - max_step_discharge cfg <= raw).
Proof.
  intros Hdt Hcap Hv Hmax Horder Hsoc raw.
  split; [apply discharge_le; assumption |].
  destruct (Qlt_le_dec soc (SoC_Low cfg)) as [Hlow | Hhigh].
  - left. destruct (sample_low_SoC cfg soc soc demand Horder Hsoc Hlow (Qeq_refl _))
      as (_ & _ & Hmotor & _).
    subst raw. unfold discharge. cbv zeta.
    rewrite (proj2 (gt_false_iff _ 0)) by lra. reflexivity.
  - right. subst raw.
    rewrite discharge_closed_form, max_step_discharge_closed_form by lra.
    pose proof (sample_motor_le_limit cfg soc demand Hmax) as Hle.
    set (p := s_motor (sample cfg soc demand)) in *. clearbody p.
    set (k := dt cfg / (battery_capacity_kWh cfg * 3600)).
    assert (Hk : 0 <= k).
    { unfold k. apply Qle_shift_div_l; lra. }
    assert (Hpk : Qmax p 0 * k <= Max_Electric_Power cfg * k).
    { apply Qmult_le_compat_r; [| exact Hk].
      destruct (Q.max_spec p 0) as [[? ->] | [? ->]]; lra. }
    lra.
Qed.

Lemma sample_SoC_floor (cfg : Config) (soc demand floor : Q) :
  0 < dt cfg -> 0 < battery_capacity_kWh cfg -> ~ battery_voltage cfg == 0 ->
  0 <= Max_Electric_Power cfg ->
  SoC_Low cfg <= SoC_High cfg ->
  0 <= soc <= 1 ->
  floor <= soc -> floor <= SoC_Low cfg - max_step_discharge cfg ->
  floor <= s_SoC (sample cfg soc demand).
Proof.
  intros Hdt Hcap Hv Hmax Horder Hsoc Hfloor Hbelow.
  destruct (sample_raw_SoC cfg soc demand Hdt Hcap Hv Hmax Horder Hsoc)
    as [Hle Hraw].
  change (s_SoC (sample cfg soc demand))
    with (clamp (discharge cfg soc (s_motor (sample cfg soc demand)))).
  destruct (clamp_spec (discharge cfg soc (s_motor (sample cfg soc demand))))
    as [[? ->] | [[? ->] | [? ->]]]; destruct Hraw; lra.
Qed.

Lemma samples_SoC_floor (cfg : Config) (demands : list Q) (floor : Q) :
  0 < dt cfg -> 0 < battery_capacity_kWh cfg -> ~ battery_voltage cfg == 0 ->
  0 <= Max_Electric_Power cfg ->
  SoC_Low cfg <= SoC_High cfg ->
  floor <= SoC_Low cfg - max_step_discharge cfg ->
  forall soc : Q,
    0 <= soc <= 1 -> floor <= soc ->
    Forall (fun s => floor <= s_SoC s) (samples cfg soc demands).
Proof.
  intros Hdt Hcap Hv Hmax Horder Hbelow.
  induction demands as [| d ds IH]; intros soc Hsoc Hfloor; cbn [samples].
  - constructor.
  - pose proof (sample_SoC_floor cfg soc d floor Hdt Hcap Hv Hmax Horder
                  Hsoc Hfloor Hbelow) as Hstep.
    constructor; [exact Hstep | apply IH; [apply clamp_bounds | exact Hstep]].
Qed.

(** X8. With [SoC_Low <= SoC_High], a non-negative motor limit, positive
    [dt] and capacity, non-zero voltage and an initial SoC within [0, 1]:
    no recorded SoC of a completed run is below the smaller of [SoC_init]
    and [SoC_Low] minus what one step at [Max_Electric_Power] removes.  The
    battery is drained at most one step past [SoC_Low]. *)
Theorem SoC_never_far_below_SoC_Low
    (cfg : Config) (demands speeds : list Q) (st : State) :
  0 < dt cfg -> 0 < battery_capacity_kWh cfg -> ~ battery_voltage cfg == 0 ->
  0 <= Max_Electric_Power cfg ->
  SoC_Low cfg <= SoC_High cfg ->
  0 <= SoC_init cfg <= 1 ->
  simulate cfg demands speeds = Completed st ->
  Forall (fun x => Qmin (SoC_init cfg) (SoC_Low cfg - max_step_discharge cfg) <= x)
         (SoC_array st).
Proof.
  intros Hdt Hcap Hv Hmax Horder Hinit Hrun.
  apply simulate_Completed_inv in Hrun as [Hlen ->].
  destruct (state_after_arrays cfg demands _ (le_n _) Hlen) as (-> & _).
  rewrite Nat.sub_diag, app_nil_r. apply Forall_fmap.
  apply samples_SoC_floor; try assumption.
  - apply Q.le_min_r.
  - apply Q.le_min_l.
Qed.

(** X8 on the script's constants: a three-second run never records an SoC
    below 0.299. *)
Lemma SoC_never_far_below_SoC_Low_example :
  let st := state_after three_seconds [300; 300; 300] 3 in
  0.299 <= Qmin (SoC_init three_seconds)
                (SoC_Low three_seconds - max_step_discharge three_seconds) /\
  Forall (fun x => Qmin (SoC_init three_seconds)
                        (SoC_Low three_seconds - max_step_discharge three_seconds)
                   <= x)
         (SoC_array st).
Proof.
  intros st. split; [vm_compute; discriminate |].
  apply (SoC_never_far_below_SoC_Low three_seconds [300; 300; 300] [13; 13; 13] st).
  - vm_compute. reflexivity.
  - vm_compute. reflexivity.
  - vm_compute. discriminate.
  - vm_compute. discriminate.
  - vm_compute. discriminate.
  - vm_compute. split; discriminate.
  - vm_compute. reflexivity.
Defined.

(** ** The clamp on a well-formed configuration *)

Lemma sample_clamp_inactive (cfg : Config) (soc demand : Q) :
  0 < dt cfg -> 0 < battery_capacity_kWh cfg -> ~ battery_voltage cfg == 0 ->
  0 <= Max_Electric_Power cfg ->
  SoC_Low cfg <= SoC_High cfg ->
  max_step_discharge cfg <= SoC_Low cfg ->
  0 <= soc <= 1 ->
  0 <= discharge cfg soc (s_motor (sample cfg soc demand)) <= 1.
Proof.
  intros Hdt Hcap Hv Hmax Horder Hstep Hsoc.
  destruct (sample_raw_SoC cfg soc demand Hdt Hcap Hv Hmax Horder Hsoc)
    as [Hle [Hraw | Hraw]]; split; lra.
Qed.

Lemma samples_clamp_inactive (cfg : Config) (demands : list Q) :
  0 < dt cfg -> 0 < battery_capacity_kWh cfg -> ~ battery_voltage cfg == 0 ->
  0 <= Max_Electric_Power cfg ->
  SoC_Low cfg <= SoC_High cfg ->
  max_step_discharge cfg <= SoC_Low cfg ->
  forall soc : Q,
    0 <= soc <= 1 ->
    let ss := samples cfg soc demands in
    Forall (fun raw => clamp raw == raw)
           (zip_with (discharge cfg) (soc :: (s_SoC <$> ss)) (s_motor <$> ss)).
Proof.
  intros Hdt Hcap Hv Hmax Horder Hstep.
  induction demands as [| d ds IH]; intros soc Hsoc ss; subst ss.
  - constructor.
  - cbn [samples fmap list_fmap zip_with]. constructor.
    + apply clamp_inside, sample_clamp_inactive; assumption.
    + apply IH, clamp_bounds.
Qed.

(** X9. On a configuration with [SoC_Low <= SoC_High] whose step at full
    motor power removes no more than [SoC_Low] (positive [dt] and capacity,
    non-zero voltage, non-negative motor limit, initial SoC within [0, 1]),
    the clamp changes no value in a completed run: every state of charge
    computed by the discharge is already within [0, 1]. *)
Theorem clamp_is_never_active
    (cfg : Config) (demands speeds : list Q) (st : State) :
  0 < dt cfg -> 0 < battery_capacity_kWh cfg -> ~ battery_voltage cfg == 0 ->
  0 <= Max_Electric_Power cfg ->
  SoC_Low cfg <= SoC_High cfg ->
  max_step_discharge cfg <= SoC_Low cfg ->
  0 <= SoC_init cfg <= 1 ->
  simulate cfg demands speeds = Completed st ->
  Forall (fun raw => clamp raw == raw) (unclamped_SoC cfg st) /\
  length (unclamped_SoC cfg st) = time_array_len cfg.
Proof.
  intros Hdt Hcap Hv Hmax Horder Hstep Hinit Hrun.
  apply simulate_Completed_inv in Hrun as [Hlen ->].
  unfold unclamped_SoC.
  destruct (state_after_arrays cfg demands _ (le_n _) Hlen) as (-> & _ & _ & -> & _).
  rewrite Nat.sub_diag, !app_nil_r. split.
  - apply samples_clamp_inactive; assumption.
  - rewrite length_zip_with, length_cons, !length_fmap, length_samples, length_take.
    lia.
Qed.

(** X9 on the script's constants, three seconds at ten times the motor
    limit. *)
Lemma clamp_is_never_active_example :
  let st := state_after three_seconds [300; 300; 300] 3 in
  Forall (fun raw => clamp raw == raw) (unclamped_SoC three_seconds st) /\
  length (unclamped_SoC three_seconds st) = 3%nat.
Proof.
  intros st.
  apply (clamp_is_never_active three_seconds [300; 300; 300] [13; 13; 13] st).
  - vm_compute. reflexivity.
  - vm_compute. reflexivity.
  - vm_compute. discriminate.
  - vm_compute. discriminate.
  - vm_compute. discriminate.
  - vm_compute. discriminate.
  - vm_compute. split; discriminate.
  - vm_compute. reflexivity.
Defined.

Lemma last_samples (cfg : Config) (demands : list Q) (soc : Q) :
  default soc (s_SoC <$> last (samples cfg soc demands)) = SoC_after cfg soc demands.
Proof.
  revert soc. induction demands as [| d ds IH]; intros soc; [reflexivity |].
  cbn [samples]. rewrite last_cons.
  change (SoC_after cfg soc (d :: ds))
    with (SoC_after cfg (s_SoC (sample cfg soc d)) ds).
  rewrite <- IH. destruct (last _); reflexivity.
Qed.

Lemma state_after_SoC (cfg : Config) (demands : list Q) (j : nat) :
  SoC (state_after cfg demands j) = SoC_after cfg (SoC_init cfg) (take j demands).
Proof. unfold state_after. rewrite store_all_SoC. apply last_samples. Qed.

(** ** Past records and future demand; stopping and resuming *)

Lemma take_samples (cfg : Config) (demands : list Q) (soc : Q) (k : nat) :
  take k (samples cfg soc demands) = samples cfg soc (take k demands).
Proof.
  revert soc k. induction demands as [| d ds IH]; intros soc [| k]; try reflexivity.
  cbn. f_equal. apply IH.
Qed.

Lemma completed_prefix
    (cfg : Config) (demands speeds : list Q) (st : State) (k : nat) :
  simulate cfg demands speeds = Completed st ->
  let ss := samples cfg (SoC_init cfg) (take (k `min` time_array_len cfg) demands) in
  take k (SoC_array st) = s_SoC <$> ss /\
  take k (mode_array st) = s_mode <$> ss /\
  take k (engine_power_array st) = s_engine <$> ss /\
  take k (motor_power_array st) = s_motor <$> ss /\
  take k (battery_power_array st) = s_battery <$> ss.
Proof.
  intros Hrun ss. subst ss.
  apply simulate_Completed_inv in Hrun as [Hlen ->].
  destruct (state_after_arrays cfg demands _ (le_n _) Hlen)
    as (-> & -> & -> & -> & ->).
  rewrite Nat.sub_diag, !app_nil_r, <- !fmap_take, take_samples, take_take.
  repeat split; reflexivity.
Qed.

(** X12. A record does not depend on later demand: two completed runs of one
    configuration whose demand sequences agree on the first [k] entries
    have the same first [k] entries in each of the five arrays. *)
Theorem records_depend_on_past_demand_only
    (cfg : Config) (demands demands' speeds speeds' : list Q)
    (st st' : State) (k : nat) :
  take k demands = take k demands' ->
  simulate cfg demands speeds = Completed st ->
  simulate cfg demands' speeds' = Completed st' ->
  take k (SoC_array st) = take k (SoC_array st') /\
  take k (mode_array st) = take k (mode_array st') /\
  take k (engine_power_array st) = take k (engine_power_array st') /\
  take k (motor_power_array st) = take k (motor_power_array st') /\
  take k (battery_power_array st) = take k (battery_power_array st').
Proof.
  intros Hk Hrun Hrun'.
  destruct (completed_prefix cfg demands speeds st k Hrun)
    as (-> & -> & -> & -> & ->).
  destruct (completed_prefix cfg demands' speeds' st' k Hrun')
    as (-> & -> & -> & -> & ->).
  assert (Hmin : take (k `min` time_array_len cfg) demands
                 = take (k `min` time_array_len cfg) demands').
  { rewrite <- (Nat.min_comm _ k), <- !take_take, Hk. reflexivity. }
  rewrite Hmin. repeat split; reflexivity.
Qed.

(** X12 on two three-second runs that differ in the last demand only. *)
Lemma records_depend_on_past_demand_only_example :
  let st := state_after three_seconds [25; 5; 35] 3 in
  let st' := state_after three_seconds [25; 5; 0] 3 in
  take 2 (SoC_array st) = take 2 (SoC_array st') /\
  take 2 (mode_array st) = take 2 (mode_array st') /\
  take 2 (engine_power_array st) = take 2 (engine_power_array st') /\
  take 2 (motor_power_array st) = take 2 (motor_power_array st') /\
  take 2 (battery_power_array st) = take 2 (battery_power_array st').
Proof.
  intros st st'.
  apply (records_depend_on_past_demand_only
           three_seconds [25; 5; 35] [25; 5; 0] [13; 13; 13] [13; 13; 13]).
  - reflexivity.
  - vm_compute. reflexivity.
  - vm_compute. reflexivity.
Defined.

(** The step function reads the configuration through the constants of the
    battery and of the control logic only. *)
Lemma samples_restarted (cfg : Config) (t soc0 soc : Q) (demands : list Q) :
  samples (with_SoC_init soc0 (with_total_time t cfg)) soc demands
  = samples cfg soc demands.
Proof.
  revert soc. induction demands as [| d ds IH]; intros soc; [reflexivity |].
  cbn [samples]. rewrite IH. reflexivity.
Qed.

Lemma SoC_after_restarted (cfg : Config) (t soc0 soc : Q) (demands : list Q) :
  SoC_after (with_SoC_init soc0 (with_total_time t cfg)) soc demands
  = SoC_after cfg soc demands.
Proof.
  revert soc. induction demands as [| d ds IH]; intros soc; [reflexivity |].
  apply IH.
Qed.

(** X13. The state of charge is all a run remembers: a completed run equals
    a completed run over the first part of [time_array] followed by one
    that starts from the state of charge the first ends with and reads the
    rest of the demand; each of the five arrays is the concatenation of the
    two runs' arrays. *)
Theorem run_can_be_stopped_and_resumed
    (cfg : Config) (t1 t2 : Q) (demands speeds speeds1 speeds2 : list Q)
    (st st1 st2 : State) :
  let cfg1 := with_total_time t1 cfg in
  let cfg2 := with_SoC_init (SoC st1) (with_total_time t2 cfg) in
  time_array_len cfg = (time_array_len cfg1 + time_array_len cfg2)%nat ->
  simulate cfg demands speeds = Completed st ->
  simulate cfg1 demands speeds1 = Completed st1 ->
  simulate cfg2 (drop (time_array_len cfg1) demands) speeds2 = Completed st2 ->
  SoC_array st = SoC_array st1 ++ SoC_array st2 /\
  mode_array st = mode_array st1 ++ mode_array st2 /\
  engine_power_array st = engine_power_array st1 ++ engine_power_array st2 /\
  motor_power_array st = motor_power_array st1 ++ motor_power_array st2 /\
  battery_power_array st = battery_power_array st1 ++ battery_power_array st2 /\
  SoC st = SoC st2.
Proof.
  intros cfg1 cfg2 Hn Hrun Hrun1 Hrun2.
  apply simulate_Completed_inv in Hrun as [Hlen ->].
  apply simulate_Completed_inv in Hrun1 as [Hlen1 Hst1].
  apply simulate_Completed_inv in Hrun2 as [Hlen2 ->].
  set (n1 := time_array_len cfg1) in *.
  assert (HSoC1 : SoC st1 = SoC_after cfg (SoC_init cfg) (take n1 demands)).
  { rewrite Hst1, state_after_SoC.
    apply (SoC_after_restarted cfg t1 (SoC_init cfg)). }
  pose proof (state_after_arrays cfg1 demands n1 (le_n _) Hlen1) as H1.
  rewrite <- Hst1 in H1. cbv zeta in H1.
  rewrite Nat.sub_diag, !app_nil_r in H1.
  change (SoC_init cfg1) with (SoC_init cfg) in H1.
  change (samples cfg1)
    with (samples (with_SoC_init (SoC_init cfg) (with_total_time t1 cfg))) in H1.
  rewrite samples_restarted in H1.
  destruct H1 as (-> & -> & -> & -> & ->).
  rewrite !state_after_SoC.
  destruct (state_after_arrays cfg demands _ (le_n _) Hlen)
    as (-> & -> & -> & -> & ->).
  destruct (state_after_arrays cfg2 _ _ (le_n _) Hlen2)
    as (-> & -> & -> & -> & ->).
  rewrite !Nat.sub_diag, !app_nil_r.
  change (SoC_init cfg2) with (SoC st1).
  set (n2 := time_array_len cfg2) in *. clearbody n2.
  unfold cfg2. rewrite !samples_restarted, SoC_after_restarted.
  assert (Hsplit : take (time_array_len cfg) demands
                   = take n1 demands ++ take n2 (drop n1 demands)).
  { rewrite take_take_drop, Hn. reflexivity. }
  rewrite Hsplit, samples_app, SoC_after_app, <- HSoC1, !fmap_app.
  repeat split; reflexivity.
Qed.

(** X13 on the script's constants: three seconds as one second followed by
    two. *)
Lemma run_can_be_stopped_and_resumed_example :
  let demands := [25; 5; 35] in
  let st := state_after three_seconds demands 3 in
  let st1 := state_after (with_total_time 1 three_seconds) demands 1 in
  let st2 := state_after (with_SoC_init (SoC st1) (with_total_time 2 three_seconds))
                         (drop 1 demands) 2 in
  SoC_array st = SoC_array st1 ++ SoC_array st2 /\
  mode_array st = mode_array st1 ++ mode_array st2 /\
  engine_power_array st = engine_power_array st1 ++ engine_power_array st2 /\
  motor_power_array st = motor_power_array st1 ++ motor_power_array st2 /\
  battery_power_array st = battery_power_array st1 ++ battery_power_array st2 /\
  SoC st = SoC st2.
Proof.
  intros demands st st1 st2.
  apply (run_can_be_stopped_and_resumed
           three_seconds 1 2 demands [13; 13; 13] [13] [13; 13] st st1 st2).
  - vm_compute. reflexivity.
  - vm_compute. reflexivity.
  - vm_compute. reflexivity.
  - vm_compute. reflexivity.
Defined.

(** ** The mode axis *)

Lemma determine_mode_code (cfg : Config) (soc demand : Q) :
  exists mode : Mode, determine_mode cfg soc demand = mode_code mode.
Proof.
  destruct (determine_mode_rule cfg soc demand) as (m & Hm & _). eauto.
Qed.

(** X15. In every state a run can end in, each entry of [mode_array] is the
    code of one of the three modes, hence an index of [mode_labels] and one
    of the ticks 0, 1, 2 of the mode axis. *)
Theorem recorded_modes_have_labels
    (cfg : Config) (demands speeds : list Q) (st : State) :
  final_state (simulate cfg demands speeds) = Some st ->
  Forall (fun m => exists mode : Mode,
                     m = mode_code mode /\
                     is_Some (mode_labels !! Z.to_nat m))
         (mode_array st).
Proof.
  intros Hrun.
  destruct (final_state_simulate _ _ _ _ Hrun) as (j & Hn & Hd & _ & ->).
  destruct (state_after_arrays cfg demands j Hn Hd) as (_ & -> & _).
  apply Forall_app. split.
  - apply Forall_fmap, Forall_forall. intros s Hs.
    apply list_elem_of_lookup in Hs as [i Hs].
    apply samples_lookup in Hs as (soc & d & _ & ->).
    destruct (determine_mode_code cfg soc d) as [mode Hmode].
    exists mode. split; [exact Hmode |].
    unfold sample. cbn [s_mode]. rewrite Hmode. destruct mode; cbn; eauto.
  - apply Forall_replicate. exists EV. split; [reflexivity | cbn; eauto].
Qed.

(** X15 on a three-second run. *)
Lemma recorded_modes_have_labels_example :
  let st := state_after three_seconds [25; 5; 70] 3 in
  mode_array st = [1; 0; 1]%Z /\
  Forall (fun m => exists mode : Mode,
                     m = mode_code mode /\
                     is_Some (mode_labels !! Z.to_nat m))
         (mode_array st).
Proof.
  intros st. split; [vm_compute; reflexivity |].
  apply (recorded_modes_have_labels three_seconds [25; 5; 70] [13; 13; 13]).
  vm_compute. reflexivity.
Defined.

(** ** The script as it is run *)

Lemma samples_SoC_le_start (cfg : Config) (demands : list Q) :
  0 < dt cfg -> 0 < battery_capacity_kWh cfg -> ~ battery_voltage cfg == 0 ->
  forall soc : Q,
    0 <= soc <= 1 ->
    Forall (fun s => s_SoC s <= soc) (samples cfg soc demands).
Proof.
  intros Hdt Hcap Hv. induction demands as [| d ds IH]; intros soc Hsoc; cbn [samples].
  - constructor.
  - pose proof (sample_SoC_le cfg soc d Hdt Hcap Hv Hsoc) as Hstep.
    constructor; [exact Hstep |].
    eapply Forall_impl; [apply IH, clamp_bounds |].
    intros s Hs. exact (Qle_trans _ _ _ Hs Hstep).
Qed.

(** X16. The script with its own constants and profiles, whatever the 1800
    draws of each: the run completes; at every step the engine and the motor
    together supply exactly the demand, the motor power is within [0, 30] and
    the recorded SoC within [0.299, 0.7]. *)
Theorem script_meets_every_demand
    (demand_draws speed_draws : list Q) (i : nat) :
  length demand_draws = 1800%nat ->
  length speed_draws = 1800%nat ->
  (i < 1800)%nat ->
  exists (st : State) (d e m x : Q),
    simulate script_config (power_demand_profile demand_draws)
                           (speed_profile speed_draws) = Completed st /\
    power_demand_profile demand_draws !! i = Some d /\
    engine_power_array st !! i = Some e /\
    motor_power_array st !! i = Some m /\
    SoC_array st !! i = Some x /\
    e + m == d /\ 0 <= m <= 30 /\ 0.299 <= x <= 0.7.
Proof.
  intros Hd Hs Hi.
  set (demands := power_demand_profile demand_draws).
  assert (Hn : time_array_len script_config = 1800%nat) by (vm_compute; reflexivity).
  assert (Hdt : 0 < dt script_config) by reflexivity.
  assert (Hcap : 0 < battery_capacity_kWh script_config) by reflexivity.
  assert (Hv : ~ battery_voltage script_config == 0) by discriminate.
  assert (Hmax : 0 <= Max_Electric_Power script_config) by discriminate.
  assert (Horder : SoC_Low script_config <= SoC_High script_config) by discriminate.
  assert (Hinit : 0 <= SoC_init script_config <= 1) by (split; discriminate).
  assert (Hfloor : 0.299 <= SoC_Low script_config - max_step_discharge script_config)
    by (vm_compute; discriminate).
  assert (Hlen : length demands = 1800%nat).
  { unfold demands, power_demand_profile. by rewrite !length_fmap. }
  assert (Hrun : simulate script_config demands (speed_profile speed_draws)
                 = Completed (state_after script_config demands 1800)).
  { rewrite <- Hn. apply simulate_completes.
    - intros H. apply Qlt_not_eq in Hdt. apply Hdt. symmetry. exact H.
    - exact Hv.
    - lia.
    - unfold speed_profile. rewrite !length_fmap. lia. }
  destruct (lookup_lt_is_Some_2 demands i) as [d Hdi]; [lia |].
  destruct (completed_step script_config demands _ _ i d Hrun ltac:(lia) Hdi)
    as (HS & _ & HE & HM & _).
  set (soc := SoC_after script_config (SoC_init script_config) (take i demands)) in *.
  assert (Hd40 : 0 <= d <= 40).
  { destruct (generated_profiles_bounds demand_draws) as [H40 _].
    exact (proj1 (Forall_lookup _ _) H40 i d Hdi). }
  assert (Hsoc : 0 <= soc <= 1) by (apply SoC_after_bounds, Hinit).
  eexists _, d, _, _, _. split; [exact Hrun |]. split; [exact Hdi |].
  split; [exact HE |]. split; [exact HM |]. split; [exact HS |].
  split; [| split].
  - apply sample_supply.
    cbn [Max_Electric_Power script_config]. lra.
  - pose proof (power_split_motor_bounds script_config
                  (determine_mode script_config soc d) d Hmax (proj1 Hd40)) as Hb.
    change (motor_power (power_split script_config
                           (determine_mode script_config soc d) d))
      with (s_motor (sample script_config soc d)) in Hb.
    cbn [Max_Electric_Power script_config] in Hb. split; lra.
  - assert (Hs_in : samples script_config (SoC_init script_config) (take (S i) demands)
                    !! i = Some (sample script_config soc d)).
    { rewrite (samples_lookup_exact script_config _ _ i d)
        by (rewrite lookup_take_lt; [exact Hdi | lia]).
      rewrite take_take, Nat.min_l by lia. reflexivity. }
    split.
    + pose proof (samples_SoC_floor script_config (take (S i) demands) 0.299
                    Hdt Hcap Hv Hmax Horder Hfloor (SoC_init script_config) Hinit
                    ltac:(vm_compute; discriminate)) as Hall.
      exact (proj1 (Forall_lookup _ _) Hall i _ Hs_in).
    + pose proof (samples_SoC_le_start script_config (take (S i) demands)
                    Hdt Hcap Hv (SoC_init script_config) Hinit) as Hall.
      exact (proj1 (Forall_lookup _ _) Hall i _ Hs_in).
Qed.

(** X16 at the last step, with all demand draws at -15 (a demand of 15 kW). *)
Lemma script_meets_every_demand_example :
  exists (st : State) (d e m x : Q),
    simulate script_config (power_demand_profile (replicate 1800 (-15)))
                           (speed_profile (replicate 1800 13)) = Completed st /\
    power_demand_profile (replicate 1800 (-15)) !! 1799%nat = Some d /\
    engine_power_array st !! 1799%nat = Some e /\
    motor_power_array st !! 1799%nat = Some m /\
    SoC_array st !! 1799%nat = Some x /\
    e + m == d /\ 0 <= m <= 30 /\ 0.299 <= x <= 0.7.
Proof.
  apply (script_meets_every_demand (replicate 1800 (-15)) (replicate 1800 13) 1799).
  - vm_compute. reflexivity.
  - vm_compute. reflexivity.
  - lia.
Defined.

(** ** The rule for a high state of charge *)

Lemma carried_SoC_lookup (cfg : Config) (demands : list Q) (soc : Q) (i : nat) :
  (i <= length demands)%nat ->
  (soc :: (s_SoC <$> samples cfg soc demands)) !! i
  = Some (SoC_after cfg soc (take i demands)).
Proof.
  revert soc i. induction demands as [| d ds IH]; intros soc [| i] Hi;
    try reflexivity; cbn in Hi; try lia.
  cbn [samples fmap list_fmap]. rewrite lookup_cons_ne_0 by lia. cbn [pred].
  rewrite IH by lia. reflexivity.
Qed.

Lemma SoC_after_le_start (cfg : Config) (demands : list Q) :
  0 < dt cfg -> 0 < battery_capacity_kWh cfg -> ~ battery_voltage cfg == 0 ->
  forall soc : Q, 0 <= soc <= 1 -> SoC_after cfg soc demands <= soc.
Proof.
  intros Hdt Hcap Hv. induction demands as [| d ds IH]; intros soc Hsoc.
  - apply Qle_refl.
  - change (SoC_after cfg soc (d :: ds))
      with (SoC_after cfg (s_SoC (sample cfg soc d)) ds).
    eapply Qle_trans; [apply IH, clamp_bounds |].
    apply sample_SoC_le; assumption.
Qed.

Lemma determine_mode_below_SoC_High (cfg : Config) (soc demand : Q) :
  soc <= SoC_High cfg ->
  determine_mode cfg soc demand =
  if Py.lt soc (SoC_Low cfg) then 2%Z
  else if Py.gt demand (Power_Demand_Threshold cfg) then 1%Z else 0%Z.
Proof.
  intros Hhigh. unfold determine_mode.
  rewrite (proj2 (gt_false_iff soc (SoC_High cfg)) Hhigh). reflexivity.
Qed.

(** X18. When the run starts at or below [SoC_High] (0.7 and 0.8 in the
    script; positive [dt] and capacity, non-zero voltage, initial SoC within
    [0, 1]), the rule for a high state of charge never decides a step of a
    completed run: the state of charge a step starts from is at most
    [SoC_High], and the recorded mode is Engine Only below [SoC_Low], and
    otherwise Hybrid above the demand threshold and EV at or below it. *)
Theorem high_SoC_rule_never_fires
    (cfg : Config) (demands speeds : list Q) (st : State)
    (i : nat) (d prev : Q) (m : Z) :
  0 < dt cfg -> 0 < battery_capacity_kWh cfg -> ~ battery_voltage cfg == 0 ->
  0 <= SoC_init cfg <= 1 ->
  SoC_init cfg <= SoC_High cfg ->
  simulate cfg demands speeds = Completed st ->
  demands !! i = Some d ->
  (SoC_init cfg :: SoC_array st) !! i = Some prev ->
  mode_array st !! i = Some m ->
  prev <= SoC_High cfg /\
  (prev < SoC_Low cfg -> m = mode_code ENGINE_ONLY) /\
  (SoC_Low cfg <= prev -> Power_Demand_Threshold cfg < d -> m = mode_code HYBRID) /\
  (SoC_Low cfg <= prev -> d <= Power_Demand_Threshold cfg -> m = mode_code EV).
Proof.
  intros Hdt Hcap Hv Hinit Hhigh Hrun Hd Hprev Hm.
  assert (Hi : (i < time_array_len cfg)%nat).
  { apply lookup_lt_Some in Hm.
    destruct (simulate_Completed_inv _ _ _ _ Hrun) as [Hlen ->].
    destruct (state_after_lengths cfg demands _ (le_n _) Hlen) as (_ & <- & _).
    exact Hm. }
  destruct (completed_step cfg demands speeds st i d Hrun Hi Hd) as (_ & Hm' & _).
  rewrite Hm' in Hm. injection Hm as <-.
  destruct (simulate_Completed_inv _ _ _ _ Hrun) as [Hlen ->].
  destruct (state_after_arrays cfg demands _ (le_n _) Hlen) as (HS & _).
  rewrite HS, Nat.sub_diag, app_nil_r in Hprev.
  rewrite carried_SoC_lookup in Hprev
    by (rewrite length_take; apply lookup_lt_Some in Hd; lia).
  rewrite take_take, Nat.min_l in Hprev by lia. injection Hprev as <-.
  set (soc := SoC_after cfg (SoC_init cfg) (take i demands)).
  assert (Hsoc : soc <= SoC_High cfg).
  { eapply Qle_trans; [apply SoC_after_le_start; assumption | exact Hhigh]. }
  split; [exact Hsoc |].
  unfold sample. cbn [s_mode]. rewrite determine_mode_below_SoC_High by exact Hsoc.
  by_cases_on_comparisons; repeat split; intros; (reflexivity || lra).
Qed.

(** X18 on a three-second run of the script's constants. *)
Lemma high_SoC_rule_never_fires_example :
  let st := state_after three_seconds [25; 5; 70] 3 in
  exists prev : Q,
    (SoC_init three_seconds :: SoC_array st) !! 1%nat = Some prev /\
    prev <= SoC_High three_seconds /\
    (prev < SoC_Low three_seconds -> 0%Z = mode_code ENGINE_ONLY) /\
    (SoC_Low three_seconds <= prev ->
     Power_Demand_Threshold three_seconds < 5 -> 0%Z = mode_code HYBRID) /\
    (SoC_Low three_seconds <= prev ->
     5 <= Power_Demand_Threshold three_seconds -> 0%Z = mode_code EV).
Proof.
  intros st. eexists. split; [vm_compute; reflexivity |].
  apply (high_SoC_rule_never_fires three_seconds [25; 5; 70] [13; 13; 13] st 1 5).
  - vm_compute. reflexivity.
  - vm_compute. reflexivity.
  - vm_compute. discriminate.
  - vm_compute. split; discriminate.
  - vm_compute. discriminate.
  - vm_compute. reflexivity.
  - reflexivity.
  - vm_compute. reflexivity.
  - vm_compute. reflexivity.
Defined.
